(** * reader3 server: path resolution, book cache and reading endpoints

    A shallow embedding of [server.py] (and of the [Book] dataclasses it
    unpickles) together with the properties stated about it.

    Conventions of the embedding:
    - a Python [str] is a Rocq [string]; each character stands for the code
      point of the same number (so the embedding covers code points below
      256);
    - a Python [int] is a [Z];
    - the disk is a read-only [FileSystem] record of observation functions;
      every observation the server makes is appended to a trace, so that
      "does not touch the disk" is a statement about that trace;
    - Python exceptions are values of [exn]; a computation returns
      [Ok v] or [Raise e] together with the new state. *)

From stdpp Require Import gmap strings list.
From Stdlib Require Import ZArith Ascii String DecimalString DecimalPos Sorted.

Local Open Scope string_scope.
Local Open Scope Z_scope.

(** ** Python string primitives used by the server *)

Module PyStr.

Definition code (a : ascii) : Z := Z.of_N (N_of_ascii a).

(** [c in s] for a one-character [c]. *)
Fixpoint contains (c : ascii) (s : string) : bool :=
  match s with
  | EmptyString => false
  | String a s' => Ascii.eqb a c || contains c s'
  end.

(** [s.startswith(c)] for a one-character [c]. *)
Definition startswith (c : ascii) (s : string) : bool :=
  match s with
  | String a _ => Ascii.eqb a c
  | EmptyString => false
  end.

(** [s.endswith(suf)]. *)
Fixpoint endswith (suf s : string) : bool :=
  String.eqb s suf ||
  match s with
  | EmptyString => false
  | String _ s' => endswith suf s'
  end.

(** Truthiness of a [str]: the empty string is falsy. *)
Definition truthy (s : string) : bool :=
  match s with EmptyString => false | _ => true end.

(** Cut at the first occurrence of [c]. *)
Fixpoint partition (c : ascii) (s : string) : option (string * string) :=
  match s with
  | EmptyString => None
  | String a s' =>
      if Ascii.eqb a c then Some (EmptyString, s')
      else match partition c s' with
           | Some (l, r) => Some (String a l, r)
           | None => None
           end
  end.

(** [s.split(c, 1)]: one or two pieces. *)
Definition split1 (c : ascii) (s : string) : list string :=
  match partition c s with
  | Some (l, r) => [l; r]
  | None => [s]
  end.

(** [s.rfind(c)]: index of the last occurrence, or -1. *)
Fixpoint rfind (c : ascii) (s : string) : Z :=
  match s with
  | EmptyString => -1
  | String a s' =>
      let r := rfind c s' in
      if 0 <=? r then r + 1
      else if Ascii.eqb a c then 0 else -1
  end.

(** [s[n:]] for a natural [n]. *)
Fixpoint drop (n : nat) (s : string) : string :=
  match n, s with
  | O, _ => s
  | S n', String _ s' => drop n' s'
  | S _, EmptyString => EmptyString
  end.

(** [s.split(c)]: all the pieces, never an empty list. *)
Fixpoint split (c : ascii) (s : string) : list string :=
  match s with
  | EmptyString => [EmptyString]
  | String a s' =>
      if Ascii.eqb a c then EmptyString :: split c s'
      else match split c s' with
           | p :: ps => String a p :: ps
           | [] => [String a EmptyString]
           end
  end.

(** [sep.join(l)]. *)
Fixpoint join (sep : string) (l : list string) : string :=
  match l with
  | [] => EmptyString
  | [x] => x
  | x :: l' => x +:+ sep +:+ join sep l'
  end.

(** [str(n)] for an [int] (what an f-string field prints). *)
Definition of_int (n : Z) : string := NilZero.string_of_int (Z.to_int n).

(** *** [int(s)] on a [str]

    CPython first maps every non-ASCII white-space code point to a blank
    (below 256 these are U+0085 and U+00A0), then reads: blanks, an
    optional sign, decimal digits where single underscores may separate
    digits, blanks, end of string.  More digits than
    [sys.int_max_str_digits] are refused.  Every failure is a
    [ValueError]; here [None]. *)

Definition is_space (a : ascii) : bool :=
  let n := code a in ((9 <=? n) && (n <=? 13)) || (n =? 32).

Definition space_to_ascii (a : ascii) : ascii :=
  let n := code a in if (n =? 133) || (n =? 160) then " "%char else a.

Fixpoint map_chars (f : ascii -> ascii) (s : string) : string :=
  match s with
  | EmptyString => EmptyString
  | String a s' => String (f a) (map_chars f s')
  end.

Definition digit_val (a : ascii) : option Z :=
  let n := code a in
  if (48 <=? n) && (n <=? 57) then Some (n - 48) else None.

Definition is_digit (a : ascii) : bool :=
  match digit_val a with Some _ => true | None => false end.

Fixpoint skip_spaces (s : string) : string :=
  match s with
  | String a s' => if is_space a then skip_spaces s' else s
  | EmptyString => EmptyString
  end.

Fixpoint digits_loop (acc : Z) (n : nat) (s : string)
  : option (Z * nat * string) :=
  match s with
  | EmptyString => Some (acc, n, EmptyString)
  | String a s' =>
      match digit_val a with
      | Some d => digits_loop (acc * 10 + d) (S n) s'
      | None =>
          if Ascii.eqb a "_"
          then match s' with
               | String b _ =>
                   if is_digit b then digits_loop acc n s' else None
               | EmptyString => None
               end
          else Some (acc, n, s)
      end
  end.

Definition int_max_str_digits : nat := 4300.

Definition int_unsigned (s : string) : option Z :=
  match s with
  | String a _ =>
      if is_digit a then
        match digits_loop 0 0 s with
        | Some (v, n, rest) =>
            match skip_spaces rest with
            | EmptyString =>
                if (int_max_str_digits <? n)%nat then None else Some v
            | _ => None
            end
        | None => None
        end
      else None
  | EmptyString => None
  end.

Definition int (s : string) : option Z :=
  match skip_spaces (map_chars space_to_ascii s) with
  | String "+" s' => int_unsigned s'
  | String "-" s' => Z.opp <$> int_unsigned s'
  | s' => int_unsigned s'
  end.

End PyStr.

(** ** [posixpath]: the [os.path] functions used by the server *)

Module posixpath.

Definition sep : ascii := "/"%char.

(** One step of the loop of [join]. *)
Definition join2 (path b : string) : string :=
  if PyStr.startswith sep b then b
  else if negb (PyStr.truthy path) || PyStr.endswith "/" path
       then path +:+ b
       else path +:+ "/" +:+ b.

(** [os.path.join(a, *p)]. *)
Definition join (a : string) (p : list string) : string :=
  fold_left join2 p a.

(** [os.path.basename(p)]: [p[p.rfind('/') + 1:]]. *)
Definition basename (p : string) : string :=
  PyStr.drop (Z.to_nat (PyStr.rfind sep p + 1)) p.

(** The component loop of [normpath]; [new_comps] is kept reversed. *)
Fixpoint norm_comps (initial_slashes : nat) (comps new_comps : list string)
  : list string :=
  match comps with
  | [] => List.rev new_comps
  | comp :: comps' =>
      if String.eqb comp "" || String.eqb comp "."
      then norm_comps initial_slashes comps' new_comps
      else if negb (String.eqb comp "..")
              || ((initial_slashes =? 0)%nat && bool_decide (new_comps = []))
              || match new_comps with
                 | last :: _ => String.eqb last ".."
                 | [] => false
                 end
      then norm_comps initial_slashes comps' (comp :: new_comps)
      else norm_comps initial_slashes comps' (tail new_comps)
  end.

(** [os.path.normpath(path)]. *)
Definition normpath (path : string) : string :=
  if negb (PyStr.truthy path) then "."
  else
    let initial_slashes : nat :=
      match path with
      | String "/" (String "/" (String "/" _)) => 1
      | String "/" (String "/" _) => 2
      | String "/" _ => 1
      | _ => 0
      end%nat in
    let comps := norm_comps initial_slashes (PyStr.split sep path) [] in
    let path' := PyStr.join "/" comps in
    let path'' :=
      match initial_slashes with
      | O => path'
      | 1%nat => "/" +:+ path'
      | _ => "//" +:+ path'
      end in
    if PyStr.truthy path'' then path'' else ".".

(** [os.path.abspath(path)] for a process whose working directory is
    [cwd] (an absolute path). *)
Definition abspath (cwd path : string) : string :=
  normpath (join cwd [path]).

End posixpath.

(** ** The unpickled data: the dataclasses of [reader3] *)

Module ChapterContent.
Record t := mk {
  id : string;
  href : string;
  title : string;
  content : string;
  text : string;
  order : Z
}.
End ChapterContent.

(** [TOCEntry]: [title], [href], [file_href], [anchor], [children]. *)
#[warnings="-register-all"]
Inductive TOCEntry :=
| mkTOCEntry (title href file_href anchor : string) (children : list TOCEntry).

Module BookMetadata.
Record t := mk {
  title : string;
  language : string;
  authors : list string;
  description : option string;
  publisher : option string;
  date : option string;
  identifiers : list string;
  subjects : list string
}.
End BookMetadata.

Record Book := mkBook {
  metadata : BookMetadata.t;
  spine : list ChapterContent.t;
  toc : list TOCEntry;
  images : gmap string string;
  source_file : string;
  processed_at : string;
  version : string
}.

(** ** Exceptions and results *)

Inductive exc_class :=
| ValueError | TypeError | IndexError | OSError | UnpicklingError | EOFError
| KeyboardInterrupt | SystemExit.

Inductive exn :=
| PyExc (cls : exc_class) (msg : string)
| HTTPException (status_code : Z) (detail : string).

(** [isinstance(e, Exception)]: everything but the two classes that derive
    from [BaseException] directly. *)
Definition is_Exception (e : exn) : bool :=
  match e with
  | PyExc KeyboardInterrupt _ | PyExc SystemExit _ => false
  | _ => true
  end.

(** [isinstance(e, ValueError)]. *)
Definition is_ValueError (e : exn) : bool :=
  match e with
  | PyExc ValueError _ => true
  | _ => false
  end.

(** [str(e)]. *)
Definition exn_str (e : exn) : string :=
  match e with
  | PyExc _ msg => msg
  | HTTPException code detail => PyStr.of_int code +:+ ": " +:+ detail
  end.

Inductive res (A : Type) :=
| Ok (a : A)
| Raise (e : exn).
Arguments Ok {A} a.
Arguments Raise {A} e.

(** ** The disk, the trace and the process state *)

Record FileSystem := mkFS {
  getcwd : string;
  (** [os.path.exists(p)] *)
  path_exists : string -> bool;
  (** [os.path.isdir(p)] *)
  path_isdir : string -> bool;
  (** [os.listdir(p)]: the entries, or the [OSError] it raises *)
  listdir : string -> res (list string);
  (** [open(p, "rb")] followed by [pickle.load]: the book, or what either
      of the two raises *)
  unpickle : string -> res Book
}.

Inductive Event :=
| EvExists (p : string)
| EvIsdir (p : string)
| EvListdir (p : string)
| EvUnpickle (p : string)
| EvPrint (line : string).

(** An event that reads the disk (everything but printing). *)
Definition is_disk_event (e : Event) : bool :=
  match e with EvPrint _ => false | _ => true end.

(** An existence probe. *)
Definition is_probe (e : Event) : bool :=
  match e with EvExists _ => true | _ => false end.

(** An event that opens and deserializes a snapshot. *)
Definition is_unpickle_event (e : Event) : bool :=
  match e with EvUnpickle _ => true | _ => false end.

(** The state of the process: the store of [functools.lru_cache] around
    [load_book_cached] (most recently used entry first), its [hits] and
    [misses] counters as [cache_info()] reports them, and the trace. *)
Record State := mkState {
  lru : list (string * option Book);
  hits : nat;
  misses : nat;
  trace : list Event
}.

Definition initial_state : State :=
  {| lru := []; hits := 0; misses := 0; trace := [] |}.

Definition M (A : Type) : Type := State -> res A * State.

Definition ret {A} (a : A) : M A := fun st => (Ok a, st).

Definition raise {A} (e : exn) : M A := fun st => (Raise e, st).

Definition bind {A B} (c : M A) (k : A -> M B) : M B :=
  fun st =>
    match c st with
    | (Ok a, st') => k a st'
    | (Raise e, st') => (Raise e, st')
    end.

Notation "x <- c ;; k" := (bind c (fun x => k))
  (at level 100, c at next level, right associativity).

Definition lift {A} (r : res A) : M A := fun st => (r, st).

(** [try: body / except <catches> as e: handler e]. *)
Definition try_except {A} (body : M A) (catches : exn -> bool)
    (handler : exn -> M A) : M A :=
  fun st =>
    match body st with
    | (Raise e, st') => if catches e then handler e st' else (Raise e, st')
    | r => r
    end.

Definition emit (e : Event) : M unit :=
  fun st => (Ok tt, {| lru := lru st; hits := hits st; misses := misses st;
                       trace := trace st ++ [e] |}).

Definition print (line : string) : M unit := emit (EvPrint line).

(** [len(l)] as an [int]. *)
Definition len {A} (l : list A) : Z := Z.of_nat (List.length l).

(** [l[i]]: negative indices count from the end, anything else out of range
    raises [IndexError]. *)
Definition getitem {A} (l : list A) (i : Z) : res A :=
  let j := if i <? 0 then i + len l else i in
  if j <? 0 then Raise (PyExc IndexError "list index out of range")
  else match l !! Z.to_nat j with
       | Some x => Ok x
       | None => Raise (PyExc IndexError "list index out of range")
       end.

(** [a, b = l]. *)
Definition unpack2 (l : list string) : res (string * string) :=
  match l with
  | [a; b] => Ok (a, b)
  | [] | [_] =>
      Raise (PyExc ValueError "not enough values to unpack (expected 2)")
  | _ => Raise (PyExc ValueError "too many values to unpack (expected 2)")
  end.

(** [int(s)] as a computation. *)
Definition int (s : string) : res Z :=
  match PyStr.int s with
  | Some n => Ok n
  | None => Raise (PyExc ValueError "invalid literal for int() with base 10")
  end.

(** ** The store of [functools.lru_cache] *)

Module LRU.

Definition maxsize : nat := 10.

Definition store := list (string * option Book).

Fixpoint get (key : string) (c : store) : option (option Book) :=
  match c with
  | [] => None
  | (k, v) :: c' => if String.eqb k key then Some v else get key c'
  end.

Fixpoint remove (key : string) (c : store) : store :=
  match c with
  | [] => []
  | (k, v) :: c' =>
      if String.eqb k key then remove key c' else (k, v) :: remove key c'
  end.

Definition keys (c : store) : list string := map fst c.

(** The flag [full] of the wrapper. *)
Definition full (c : store) : bool := (maxsize <=? List.length c)%nat.

(** A hit moves the link to the most recent end of the queue. *)
Definition touch (key : string) (result : option Book) (c : store) : store :=
  (key, result) :: remove key c.

(** What the wrapper does with the result of the user function. *)
Definition put (key : string) (result : option Book) (c : store) : store :=
  match get key c with
  | Some _ => c
  | None =>
      if full c then (key, result) :: removelast c
      else (key, result) :: c
  end.

End LRU.

(** ** Requests and responses *)

Record Request := mkRequest { url : string }.

(** One entry of the [directories] list of the library page. *)
Record DirEntry := mkDirEntry {
  dir_name : string;
  dir_path : string;
  dir_index_ : Z
}.

(** One entry of the [books] list of the library page. *)
Record BookEntry := mkBookEntry {
  entry_id : string;
  entry_title : string;
  entry_author : string;
  entry_chapters : Z
}.

(** The context dictionaries handed to the templates. *)
Inductive Context :=
| CtxDirectories (request : Request) (directories : list DirEntry)
| CtxBooks (request : Request) (books : list BookEntry)
| CtxReader (request : Request) (book : Book)
    (current_chapter : ChapterContent.t) (chapter_index : Z)
    (book_id : string) (prev_idx next_idx : option Z).

Inductive Response :=
| TemplateResponse (name : string) (context : Context)
| FileResponse (path : string).

(** The keyword arguments of a call of [read_chapter]: a caller supplies
    some of the three parameters. *)
Record ReadChapterCall := mkCall {
  arg_request : option Request;
  arg_book_id : option string;
  arg_chapter_index : option Z
}.

(** The names of the required parameters a call leaves out, in the order of
    the signature. *)
Definition missing_args (c : ReadChapterCall) : list string :=
  (match arg_request c with Some _ => [] | None => ["request"] end) ++
  (match arg_book_id c with Some _ => [] | None => ["book_id"] end) ++
  (match arg_chapter_index c with Some _ => [] | None => ["chapter_index"] end).

Definition quote (s : string) : string := "'" +:+ s +:+ "'".

(** The message of the [TypeError] Python raises for them. *)
Definition missing_args_msg (fname : string) (names : list string) : string :=
  fname +:+ "() missing " +:+ PyStr.of_int (len names) +:+
  match names with
  | [a] => " required positional argument: " +:+ quote a
  | [a; b] =>
      " required positional arguments: " +:+ quote a +:+ " and " +:+ quote b
  | _ =>
      " required positional arguments: " +:+
      PyStr.join ", " (map quote (removelast names)) +:+ ", and " +:+
      quote (List.last names "")
  end.

(** ** [server.py] *)

Section Server.

Variable fs : FileSystem.
(** Set once from the command line before the server starts. *)
Variable BOOK_DIRS : list string.

Definition os_path_exists (p : string) : M bool :=
  _ <- emit (EvExists p) ;; ret (path_exists fs p).

Definition os_path_isdir (p : string) : M bool :=
  _ <- emit (EvIsdir p) ;; ret (path_isdir fs p).

Definition os_listdir (p : string) : M (list string) :=
  _ <- emit (EvListdir p) ;; lift (listdir fs p).

Definition open_and_pickle_load (p : string) : M Book :=
  _ <- emit (EvUnpickle p) ;; lift (unpickle fs p).

(** The fallback loop of [resolve_book_path] over the remaining
    directories. *)
Fixpoint search_all_directories (book_id : string) (dirs : list string)
  : M (option string * option string) :=
  match dirs with
  | [] => ret (None, None)
  | d :: dirs' =>
      let pkl_path := posixpath.join d [book_id; "book.pkl"] in
      e <- os_path_exists pkl_path ;;
      if e then ret (Some pkl_path, Some (posixpath.join d [book_id]))
      else search_all_directories book_id dirs'
  end.

(** The [try] block of [resolve_book_path]: [Some r] stands for
    [return r] inside the block, [None] for falling out of it. *)
Definition try_explicit_index (book_id : string)
  : M (option (option string * option string)) :=
  p <- lift (unpack2 (PyStr.split1 ":" book_id)) ;;
  let idx_s := fst p in
  let folder := snd p in
  idx <- lift (int idx_s) ;;
  if (0 <=? idx) && (idx <? len BOOK_DIRS) then
    base_dir <- lift (getitem BOOK_DIRS idx) ;;
    ret (Some (Some (posixpath.join base_dir [folder; "book.pkl"]),
               Some (posixpath.join base_dir [folder])))
  else ret None.

Definition resolve_book_path (book_id : string)
  : M (option string * option string) :=
  r <- (if PyStr.contains ":" book_id
        then try_except (try_explicit_index book_id) is_ValueError
                        (fun _ => ret None)
        else ret None) ;;
  match r with
  | Some result => ret result
  | None => search_all_directories book_id BOOK_DIRS
  end.

(** The function under the decorator ([load_book_cached.__wrapped__]). *)
Definition load_book_cached_wrapped (book_id : string) : M (option Book) :=
  r <- resolve_book_path book_id ;;
  match fst r with
  | None => ret None
  | Some file_path =>
      if negb (PyStr.truthy file_path) then ret None
      else
        e <- os_path_exists file_path ;;
        if negb e then ret None
        else
          try_except
            (book <- open_and_pickle_load file_path ;; ret (Some book))
            is_Exception
            (fun e =>
               _ <- print ("Error loading book " +:+ book_id +:+ ": "
                           +:+ exn_str e) ;;
               ret None)
  end.

(** The wrapper [lru_cache(maxsize=10)] puts around [user_function]. *)
Definition lru_cache_wrapper (user_function : string -> M (option Book))
    (key : string) : M (option Book) :=
  fun st =>
    match LRU.get key (lru st) with
    | Some result =>
        (Ok result,
         {| lru := LRU.touch key result (lru st); hits := S (hits st);
            misses := misses st; trace := trace st |})
    | None =>
        let st1 := {| lru := lru st; hits := hits st;
                      misses := S (misses st); trace := trace st |} in
        match user_function key st1 with
        | (Ok result, st2) =>
            (Ok result,
             {| lru := LRU.put key result (lru st2); hits := hits st2;
                misses := misses st2; trace := trace st2 |})
        | (Raise e, st2) => (Raise e, st2)
        end
    end.

Definition load_book_cached : string -> M (option Book) :=
  lru_cache_wrapper load_book_cached_wrapped.

(** The loop over [os.listdir(target_dir)] in [library_view]. *)
Fixpoint list_books (target_dir : string) (target_idx : Z)
    (items : list string) (books : list BookEntry) : M (list BookEntry) :=
  match items with
  | [] => ret books
  | item :: items' =>
      if PyStr.endswith "_data" item then
        let full_item_path := posixpath.join target_dir [item] in
        d <- os_path_isdir full_item_path ;;
        if d then
          let scoped_id := PyStr.of_int target_idx +:+ ":" +:+ item in
          book <- load_book_cached scoped_id ;;
          match book with
          | Some b =>
              list_books target_dir target_idx items'
                (books ++
                 [{| entry_id := scoped_id;
                     entry_title := BookMetadata.title (metadata b);
                     entry_author :=
                       PyStr.join ", " (BookMetadata.authors (metadata b));
                     entry_chapters := len (spine b) |}])
          | None => list_books target_dir target_idx items' books
          end
        else list_books target_dir target_idx items' books
      else list_books target_dir target_idx items' books
  end.

(** [enumerate(BOOK_DIRS)] turned into the [directories] list. *)
Fixpoint list_directories (i : Z) (dirs : list string) : list DirEntry :=
  match dirs with
  | [] => []
  | d :: dirs' =>
      let a := posixpath.abspath (getcwd fs) d in
      {| dir_name := if PyStr.truthy (posixpath.basename a)
                     then posixpath.basename a else d;
         dir_path := a;
         dir_index_ := i |} :: list_directories (i + 1) dirs'
  end.

Definition library_view (request : Request) (dir_index : option Z)
  : M Response :=
  if (1 <? len BOOK_DIRS)
     && match dir_index with None => true | Some _ => false end then
    ret (TemplateResponse "library.html"
           (CtxDirectories request (list_directories 0 BOOK_DIRS)))
  else
    let target_idx := match dir_index with Some i => i | None => 0 end in
    let target_idx :=
      if (target_idx <? 0) || (len BOOK_DIRS <=? target_idx) then 0
      else target_idx in
    target_dir <- lift (getitem BOOK_DIRS target_idx) ;;
    e <- os_path_exists target_dir ;;
    books <- (if e then
                items <- os_listdir target_dir ;;
                list_books target_dir target_idx items []
              else ret []) ;;
    ret (TemplateResponse "library.html" (CtxBooks request books)).

Definition read_chapter (request : Request) (book_id : string)
    (chapter_index : Z) : M Response :=
  book <- load_book_cached book_id ;;
  match book with
  | None => raise (HTTPException 404 "Book not found")
  | Some book =>
      if (chapter_index <? 0) || (len (spine book) <=? chapter_index)
      then raise (HTTPException 404 "Chapter not found")
      else
        current_chapter <- lift (getitem (spine book) chapter_index) ;;
        let prev_idx :=
          if 0 <? chapter_index then Some (chapter_index - 1) else None in
        let next_idx :=
          if chapter_index <? len (spine book) - 1
          then Some (chapter_index + 1) else None in
        ret (TemplateResponse "reader.html"
               (CtxReader request book current_chapter chapter_index
                          book_id prev_idx next_idx))
  end.

(** A Python call of [read_chapter] by keywords: the parameters are bound
    first, and a required one that is left out is a [TypeError] raised
    before the body starts. *)
Definition call_read_chapter (c : ReadChapterCall) : M Response :=
  match arg_request c, arg_book_id c, arg_chapter_index c with
  | Some request, Some book_id, Some chapter_index =>
      read_chapter request book_id chapter_index
  | _, _, _ =>
      raise (PyExc TypeError
               (missing_args_msg "read_chapter" (missing_args c)))
  end.

(** What the framework does for [GET /read/{book_id}/{chapter_index}]. *)
Definition route_read_chapter (request : Request) (book_id : string)
    (chapter_index : Z) : M Response :=
  call_read_chapter {| arg_request := Some request;
                       arg_book_id := Some book_id;
                       arg_chapter_index := Some chapter_index |}.

(** The handler of [GET /read/{book_id}]. *)
Definition redirect_to_first_chapter (book_id : string) : M Response :=
  call_read_chapter {| arg_request := None;
                       arg_book_id := Some book_id;
                       arg_chapter_index := Some 0 |}.

Definition serve_image (book_id image_name : string) : M Response :=
  r <- resolve_book_path book_id ;;
  match snd r with
  | None => raise (HTTPException 404 "Book path not found")
  | Some book_folder =>
      if negb (PyStr.truthy book_folder)
      then raise (HTTPException 404 "Book path not found")
      else
        let safe_image_name := posixpath.basename image_name in
        let img_path :=
          posixpath.join book_folder ["images"; safe_image_name] in
        e <- os_path_exists img_path ;;
        if negb e then raise (HTTPException 404 "Image not found")
        else ret (FileResponse img_path)
  end.

(** A run of requests that each look one identifier up, in order; every
    request starts from the state the previous one left, whatever the
    previous one returned or raised. *)
Definition run_lookups (ids : list string) (st : State) : State :=
  fold_left (fun st k => snd (load_book_cached k st)) ids st.

End Server.


(** ** Vocabulary of the properties *)

(** The time of the most recent lookup of [k] in the history [h] (lookups
    are numbered from 1; 0 when [k] was never looked up). *)
Fixpoint last_use_from (t : nat) (h : list string) (k : string) : nat :=
  match h with
  | [] => 0
  | x :: h' =>
      match last_use_from (S t) h' k with
      | O => if String.eqb x k then t else 0
      | n => n
      end
  end%nat.

Definition last_use (h : list string) (k : string) : nat :=
  last_use_from 1 h k.

(** The state [st] after the events [t], the cache untouched. *)
Definition add_trace (st : State) (t : list Event) : State :=
  {| lru := lru st; hits := hits st; misses := misses st;
     trace := trace st ++ t |}.

(** How often a snapshot was opened and deserialized so far. *)
Definition unpickles (st : State) : nat :=
  List.length (List.filter is_unpickle_event (trace st)).

(** The disk events of a trace. *)
Definition disk_events (t : list Event) : list Event :=
  List.filter is_disk_event t.

(** Whatever opening or deserializing a snapshot raises is an error, that
    is an instance of [Exception]. *)
Definition errors_only (fs : FileSystem) : Prop :=
  forall p e, unpickle fs p = Raise e -> is_Exception e = true.

(** The resolver yields a snapshot path for [book_id] and that path exists
    on disk. *)
Definition snapshot_exists (fs : FileSystem) (BOOK_DIRS : list string)
    (book_id : string) (st : State) : bool :=
  match fst (resolve_book_path fs BOOK_DIRS book_id st) with
  | Ok (Some p, _) => path_exists fs p
  | _ => false
  end.

(** [a] was looked up more recently than [b] in the history [h]. *)
Definition more_recent (h : list string) (a b : string) : Prop :=
  (last_use h b < last_use h a)%nat.

(** The entries are in the order of their last lookup, most recent first,
    and there are at most [maxsize] of them. *)
Definition cache_ok (h : list string) (c : LRU.store) : Prop :=
  StronglySorted (more_recent h) (LRU.keys c) /\
  (List.length c <= LRU.maxsize)%nat.

(** The identifier has a scoped form that [resolve_book_path] accepts: a
    prefix before the first colon that [int] reads as an index into the
    directory list. *)
Definition scoped (BOOK_DIRS : list string) (book_id : string)
    (i : Z) (name : string) : Prop :=
  exists idx_s,
    PyStr.split1 ":" book_id = [idx_s; name] /\
    PyStr.contains ":" book_id = true /\
    PyStr.int idx_s = Some i /\ 0 <= i < len BOOK_DIRS.

(** The identifier has a colon, but its prefix is not numeric or is out of
    range. *)
Definition bad_prefix (BOOK_DIRS : list string) (book_id : string) : Prop :=
  exists idx_s name,
    PyStr.split1 ":" book_id = [idx_s; name] /\
    PyStr.contains ":" book_id = true /\
    (PyStr.int idx_s = None \/
     exists i, PyStr.int idx_s = Some i /\ (i < 0 \/ len BOOK_DIRS <= i)).

(** The snapshot path and the folder of [book_id] under the root [d]. *)
Definition snapshot_under (d book_id : string) : string :=
  posixpath.join d [book_id; "book.pkl"].

Definition folder_under (d book_id : string) : string :=
  posixpath.join d [book_id].

(** [BOOK_DIRS] as the main block of the server sets it from [sys.argv]:
    the arguments after the program name, or the current directory when
    there is none. *)
Definition book_dirs_from_argv (argv : list string) : list string :=
  if 1 <? len argv then drop 1 argv else ["."].

(** The identifier the library page builds for the entry [item] of the
    directory number [target_idx]. *)
Definition scoped_id (target_idx : Z) (item : string) : string :=
  PyStr.of_int target_idx +:+ ":" +:+ item.

(** What a load that goes to the disk returns (or raises) for [book_id]:
    the function under the decorator, run on its own. *)
Definition uncached_value (fs : FileSystem) (BOOK_DIRS : list string)
    (book_id : string) : res (option Book) :=
  fst (load_book_cached_wrapped fs BOOK_DIRS book_id initial_state).

(** Every entry of the store holds what a load from the disk returns for
    its key. *)
Definition coherent (fs : FileSystem) (BOOK_DIRS : list string)
    (c : LRU.store) : Prop :=
  forall k v, LRU.get k c = Some v -> uncached_value fs BOOK_DIRS k = Ok v.

(** [l] without the occurrences of [k]. *)
Fixpoint forget (k : string) (l : list string) : list string :=
  match l with
  | [] => []
  | x :: l' => if String.eqb x k then forget k l' else x :: forget k l'
  end.

(** The distinct identifiers of a history, the most recently looked up
    first. *)
Definition recent (h : list string) : list string :=
  fold_left (fun r k => k :: forget k r) h [].

(** The line of the library page for the directory entry [item], if it gets
    one: the entry must end in [_data], be a directory, and its snapshot
    must load. *)
Definition listed_entry (fs : FileSystem) (BOOK_DIRS : list string)
    (target_dir : string) (target_idx : Z) (item : string)
  : option BookEntry :=
  if PyStr.endswith "_data" item
     && path_isdir fs (posixpath.join target_dir [item])
  then match uncached_value fs BOOK_DIRS (scoped_id target_idx item) with
       | Ok (Some b) =>
           Some {| entry_id := scoped_id target_idx item;
                   entry_title := BookMetadata.title (metadata b);
                   entry_author :=
                     PyStr.join ", " (BookMetadata.authors (metadata b));
                   entry_chapters := len (spine b) |}
       | _ => None
       end
  else None.

(** The components [normpath] keeps of a path, for a given number of
    leading slashes. *)
Definition norm_components (initial_slashes : nat) (p : string)
  : list string :=
  posixpath.norm_comps initial_slashes (PyStr.split posixpath.sep p) [].

(** The lookup of [book_id] in the state [st] evicts: some key that is
    stored before it is no longer stored after it. *)
Definition evicts (fs : FileSystem) (BOOK_DIRS : list string)
    (book_id : string) (st : State) : bool :=
  let after :=
    LRU.keys (lru (snd (load_book_cached fs BOOK_DIRS book_id st))) in
  existsb (fun k => negb (existsb (String.eqb k) after)) (LRU.keys (lru st)).

(** None of the lookups of [ids], run one after the other from [st],
    evicts. *)
Fixpoint no_evictions (fs : FileSystem) (BOOK_DIRS : list string)
    (ids : list string) (st : State) : bool :=
  match ids with
  | [] => true
  | k :: ids' =>
      negb (evicts fs BOOK_DIRS k st)
      && no_evictions fs BOOK_DIRS ids'
           (snd (load_book_cached fs BOOK_DIRS k st))
  end.

(** ** A small library on disk, for the examples *)

Module Demo.

Definition chapter (n : Z) (t : string) : ChapterContent.t :=
  {| ChapterContent.id := PyStr.of_int n;
     ChapterContent.href := "ch" +:+ PyStr.of_int n +:+ ".html";
     ChapterContent.title := t;
     ChapterContent.content := "<p>" +:+ t +:+ "</p>";
     ChapterContent.text := t;
     ChapterContent.order := n |}.

Definition meta (t : string) : BookMetadata.t :=
  {| BookMetadata.title := t;
     BookMetadata.language := "en";
     BookMetadata.authors := ["Me"];
     BookMetadata.description := None;
     BookMetadata.publisher := None;
     BookMetadata.date := None;
     BookMetadata.identifiers := [];
     BookMetadata.subjects := [] |}.

(** A book with three chapters. *)
Definition bookA : Book :=
  {| metadata := meta "Book A";
     spine := [chapter 0 "One"; chapter 1 "Two"; chapter 2 "Three"];
     toc := [mkTOCEntry "One" "ch0.html" "ch0.html" "" []];
     images := {[ "cover.png" := "images/cover.png" ]};
     source_file := "a.epub";
     processed_at := "2025-01-01T00:00:00";
     version := "3.0" |}.

Definition bookB : Book :=
  {| metadata := meta "Book B";
     spine := [chapter 0 "Only"];
     toc := [];
     images := ∅;
     source_file := "b.epub";
     processed_at := "2025-01-01T00:00:00";
     version := "3.0" |}.

Definition dirs : list string :=
  ["/"; "/lib"; "/lib/bookA_data"; "/lib/bookA_data/images";
   "/lib/bad_data"; "/other"; "/other/bookA_data"; "/other/bookB_data"].

Definition files : list string :=
  ["/lib/bookA_data/book.pkl"; "/lib/bookA_data/images/cover.png";
   "/lib/bad_data/book.pkl"; "/lib/notes.txt";
   "/other/bookA_data/book.pkl"; "/other/bookB_data/book.pkl"].

Definition mem (p : string) (l : list string) : bool :=
  existsb (String.eqb p) l.

(** No symbolic links: a path names what its normal form names. *)
Definition disk : FileSystem :=
  {| getcwd := "/";
     path_exists p :=
       let q := posixpath.abspath "/" p in mem q dirs || mem q files;
     path_isdir p := mem (posixpath.abspath "/" p) dirs;
     listdir p :=
       let q := posixpath.abspath "/" p in
       if String.eqb q "/lib"
       then Ok ["bookA_data"; "bad_data"; "notes.txt"]
       else if String.eqb q "/other"
       then Ok ["bookA_data"; "bookB_data"]
       else if mem q dirs then Ok []
       else Raise (PyExc OSError "[Errno 20] Not a directory");
     unpickle p :=
       let q := posixpath.abspath "/" p in
       if String.eqb q "/lib/bookA_data/book.pkl" then Ok bookA
       else if String.eqb q "/other/bookA_data/book.pkl" then Ok bookA
       else if String.eqb q "/other/bookB_data/book.pkl" then Ok bookB
       else if String.eqb q "/lib/bad_data/book.pkl"
       then Raise (PyExc UnpicklingError "invalid load key, 'x'.")
       else Raise (PyExc OSError "[Errno 2] No such file or directory")
  |}.

Definition path_exists_on_disk (p : string) : bool := path_exists disk p.

(** The same disk at a moment when reading a snapshot is interrupted from
    the keyboard. *)
Definition interrupted_disk : FileSystem :=
  {| getcwd := getcwd disk;
     path_exists := path_exists disk;
     path_isdir := path_isdir disk;
     listdir := listdir disk;
     unpickle p := Raise (PyExc KeyboardInterrupt "") |}.

(** The same disk after the snapshot of book A was replaced by a broken
    one. *)
Definition changed_disk : FileSystem :=
  {| getcwd := getcwd disk;
     path_exists := path_exists disk;
     path_isdir := path_isdir disk;
     listdir := listdir disk;
     unpickle p := Raise (PyExc EOFError "Ran out of input") |}.

Definition roots1 : list string := ["/lib"].
Definition roots2 : list string := ["/lib"; "/other"].

Definition request : Request := {| url := "http://127.0.0.1:8123/" |}.

(** Ten distinct identifiers, then an eleventh. *)
Definition ten : list string :=
  ["a"; "b"; "c"; "d"; "e"; "f"; "g"; "h"; "i"; "j"].

End Demo.

(** * Properties *)

(** ** The Python primitives on examples *)

Example int_ex1 : PyStr.int " 1_0 " = Some 10. Proof. reflexivity. Qed.
Example int_ex2 : PyStr.int "-0" = Some 0. Proof. reflexivity. Qed.
Example int_ex3 : PyStr.int "1__0" = None. Proof. reflexivity. Qed.
Example int_ex4 : PyStr.int "_1" = None. Proof. reflexivity. Qed.
Example int_ex5 : PyStr.int "1_" = None. Proof. reflexivity. Qed.
Example int_ex6 : PyStr.int "" = None. Proof. reflexivity. Qed.
Example int_ex7 : PyStr.int "+7" = Some 7. Proof. reflexivity. Qed.
Example int_ex8 : PyStr.int "-5" = Some (-5). Proof. reflexivity. Qed.
Example int_ex9 : PyStr.int "abc" = None. Proof. reflexivity. Qed.
Example join_ex1 : posixpath.join "/lib" ["/etc"; "book.pkl"] = "/etc/book.pkl". Proof. reflexivity. Qed.
Example join_ex2 : posixpath.join "/lib" [""; "book.pkl"] = "/lib/book.pkl". Proof. reflexivity. Qed.
Example join_ex3 : posixpath.join "" ["x"] = "x". Proof. reflexivity. Qed.
Example base_ex1 : posixpath.basename "../../etc/passwd" = "passwd". Proof. reflexivity. Qed.
Example base_ex2 : posixpath.basename ".." = "..". Proof. reflexivity. Qed.
Example base_ex3 : posixpath.basename "a/" = "". Proof. reflexivity. Qed.
Example norm_ex1 : posixpath.normpath "/l/images/.." = "/l". Proof. reflexivity. Qed.
Example norm_ex2 : posixpath.normpath "a//b/./c/../.." = "a". Proof. reflexivity. Qed.
Example norm_ex3 : posixpath.normpath "../a" = "../a". Proof. reflexivity. Qed.
Example norm_ex4 : posixpath.normpath "//a/.." = "//". Proof. reflexivity. Qed.
Example norm_ex5 : posixpath.normpath "/.." = "/". Proof. reflexivity. Qed.
Example of_int_ex : PyStr.of_int 12 = "12" /\ PyStr.of_int 0 = "0". Proof. split; reflexivity. Qed.

(** ** Strings and paths *)

Lemma string_app_assoc (a b c : string) :
  (a +:+ b) +:+ c = a +:+ (b +:+ c).
Proof.
  induction a as [|x a IH]; [reflexivity|].
  change (String x ((a +:+ b) +:+ c) = String x (a +:+ (b +:+ c))).
  by rewrite IH.
Qed.

Lemma endswith_slash_app a b :
  b <> "" -> PyStr.endswith "/" (a +:+ b) = PyStr.endswith "/" b.
Proof.
  intros Hb. induction a as [|c a IH]; [reflexivity|].
  change (String c a +:+ b) with (String c (a +:+ b)).
  cbn [PyStr.endswith]. rewrite IH.
  replace (String.eqb (String c (a +:+ b)) "/") with false; [reflexivity|].
  symmetry. apply String.eqb_neq. intros H. inversion H as [[Hc Hab]].
  destruct a; [cbn in Hab; contradiction | discriminate].
Qed.

Lemma join_relative root name :
  root <> "" -> PyStr.endswith "/" root = false ->
  PyStr.startswith "/" name = false ->
  posixpath.join root [name] = root +:+ "/" +:+ name.
Proof.
  intros Hr He Hs. unfold posixpath.join, posixpath.join2, posixpath.sep.
  cbn [fold_left]. rewrite Hs, He.
  destruct root; [contradiction | reflexivity].
Qed.

Lemma join_relative_snapshot root name :
  root <> "" -> PyStr.endswith "/" root = false ->
  name <> "" -> PyStr.startswith "/" name = false ->
  PyStr.endswith "/" name = false ->
  posixpath.join root [name; "book.pkl"]
  = root +:+ "/" +:+ name +:+ "/book.pkl".
Proof.
  intros Hr He Hn Hs Hen.
  change (posixpath.join root [name; "book.pkl"])
    with (posixpath.join2 (posixpath.join root [name]) "book.pkl").
  rewrite join_relative by assumption.
  unfold posixpath.join2.
  change (PyStr.startswith posixpath.sep "book.pkl") with false.
  replace (PyStr.endswith "/" (root +:+ "/" +:+ name)) with false.
  2:{ symmetry. rewrite endswith_slash_app.
      - rewrite (endswith_slash_app "/" name) by assumption. exact Hen.
      - destruct name; [contradiction | discriminate]. }
  destruct root as [|c root]; [contradiction|].
  change (String c root +:+ "/" +:+ name)
    with (String c (root +:+ "/" +:+ name)) at 1.
  cbn [PyStr.truthy negb orb].
  rewrite !string_app_assoc. reflexivity.
Qed.

Lemma truthy_app_r a b : PyStr.truthy b = true -> PyStr.truthy (a +:+ b) = true.
Proof. destruct a; [trivial | reflexivity]. Qed.

(** Whatever the directory and the folder, the snapshot path ends in the
    file name and so is not the empty string. *)
Lemma join_snapshot_truthy d name :
  PyStr.truthy (posixpath.join d [name; "book.pkl"]) = true.
Proof.
  change (posixpath.join d [name; "book.pkl"])
    with (posixpath.join2 (posixpath.join d [name]) "book.pkl").
  unfold posixpath.join2.
  change (PyStr.startswith posixpath.sep "book.pkl") with false. cbv iota.
  destruct (_ || _); repeat apply truthy_app_r; reflexivity.
Qed.

(** ** Traces *)

Lemma add_trace_nil st : add_trace st [] = st.
Proof. destruct st. unfold add_trace. cbn. by rewrite app_nil_r. Qed.

Lemma add_trace_app st a b :
  add_trace (add_trace st a) b = add_trace st (a ++ b).
Proof. unfold add_trace. cbn. by rewrite app_assoc. Qed.

Lemma emit_add_trace e st : emit e st = (Ok tt, add_trace st [e]).
Proof. reflexivity. Qed.

Lemma os_path_exists_eq fs p st :
  os_path_exists fs p st = (Ok (path_exists fs p), add_trace st [EvExists p]).
Proof. reflexivity. Qed.

Lemma os_path_isdir_eq fs p st :
  os_path_isdir fs p st = (Ok (path_isdir fs p), add_trace st [EvIsdir p]).
Proof. reflexivity. Qed.

Lemma os_listdir_eq fs p st :
  os_listdir fs p st = (listdir fs p, add_trace st [EvListdir p]).
Proof. reflexivity. Qed.

Lemma open_and_pickle_load_eq fs p st :
  open_and_pickle_load fs p st
  = (unpickle fs p, add_trace st [EvUnpickle p]).
Proof. reflexivity. Qed.

Lemma bind_ok {A B} (c : M A) (k : A -> M B) st a st' :
  c st = (Ok a, st') -> bind c k st = k a st'.
Proof. intros H. unfold bind. by rewrite H. Qed.

Lemma bind_raise {A B} (c : M A) (k : A -> M B) st e st' :
  c st = (Raise e, st') -> bind c k st = (Raise e, st').
Proof. intros H. unfold bind. by rewrite H. Qed.

(** ** The path resolver *)

Section Resolver.

Variable fs : FileSystem.
Variable BOOK_DIRS : list string.

Local Abbreviation probe id := (fun d => EvExists (snapshot_under d id)).

Lemma search_found book_id dirs k d st :
  dirs !! k = Some d ->
  path_exists fs (snapshot_under d book_id) = true ->
  (forall j d', (j < k)%nat -> dirs !! j = Some d' ->
                path_exists fs (snapshot_under d' book_id) = false) ->
  search_all_directories fs book_id dirs st
  = (Ok (Some (snapshot_under d book_id), Some (folder_under d book_id)),
     add_trace st (map (probe book_id) (take (S k) dirs))).
Proof.
  revert k st. induction dirs as [|d0 dirs IH]; intros k st Hk He Hbefore.
  - discriminate.
  - cbn [search_all_directories].
    rewrite (bind_ok _ _ _ _ _ (os_path_exists_eq _ _ _)).
    destruct k as [|k].
    + injection Hk as ->. fold (snapshot_under d book_id). rewrite He.
      reflexivity.
    + fold (snapshot_under d0 book_id).
      rewrite (Hbefore 0%nat d0) by (lia || reflexivity).
      rewrite (IH k); [| exact Hk | exact He |].
      * by rewrite add_trace_app.
      * intros j d' Hj Hd'. apply (Hbefore (S j)); [lia | exact Hd'].
Qed.

Lemma search_none book_id dirs st :
  (forall d, d ∈ dirs -> path_exists fs (snapshot_under d book_id) = false) ->
  search_all_directories fs book_id dirs st
  = (Ok (None, None), add_trace st (map (probe book_id) dirs)).
Proof.
  revert st. induction dirs as [|d0 dirs IH]; intros st Hnone.
  - cbn. by rewrite add_trace_nil.
  - cbn [search_all_directories].
    rewrite (bind_ok _ _ _ _ _ (os_path_exists_eq _ _ _)).
    fold (snapshot_under d0 book_id).
    rewrite (Hnone d0) by (left).
    rewrite IH by (intros d Hd; apply Hnone; by right).
    by rewrite add_trace_app.
Qed.

(** The fallback loop always returns; its result and the probes it adds
    to the trace depend on the disk only. *)
Lemma search_total book_id dirs :
  exists r t,
    forallb is_probe t = true /\
    (forall p, fst r = Some p -> PyStr.truthy p = true) /\
    forall st, search_all_directories fs book_id dirs st
               = (Ok r, add_trace st t).
Proof.
  induction dirs as [|d0 dirs IH].
  - exists (None, None), []. split; [reflexivity|]. split; [discriminate|].
    intros st. cbn. by rewrite add_trace_nil.
  - destruct (path_exists fs (posixpath.join d0 [book_id; "book.pkl"]))
      eqn:He.
    + exists (Some (posixpath.join d0 [book_id; "book.pkl"]),
              Some (posixpath.join d0 [book_id])),
             [EvExists (posixpath.join d0 [book_id; "book.pkl"])].
      split; [reflexivity|]. split.
      * intros p [= <-]. apply join_snapshot_truthy.
      * intros st. cbn [search_all_directories].
        rewrite (bind_ok _ _ _ _ _ (os_path_exists_eq _ _ _)).
        rewrite He. reflexivity.
    + destruct IH as (r & t & Ht & Hp & IH).
      exists r, (EvExists (posixpath.join d0 [book_id; "book.pkl"]) :: t).
      split; [exact Ht|]. split; [exact Hp|].
      intros st. cbn [search_all_directories].
      rewrite (bind_ok _ _ _ _ _ (os_path_exists_eq _ _ _)).
      rewrite He, IH. by rewrite add_trace_app.
Qed.

Lemma resolve_no_colon book_id st :
  PyStr.contains ":" book_id = false ->
  resolve_book_path fs BOOK_DIRS book_id st
  = search_all_directories fs book_id BOOK_DIRS st.
Proof.
  intros H. unfold resolve_book_path. rewrite H. reflexivity.
Qed.

Lemma resolve_bad_prefix book_id st :
  bad_prefix BOOK_DIRS book_id ->
  resolve_book_path fs BOOK_DIRS book_id st
  = search_all_directories fs book_id BOOK_DIRS st.
Proof.
  intros (idx_s & name & Hsplit & Hc & Hbad).
  unfold resolve_book_path. rewrite Hc.
  unfold bind, try_except, try_explicit_index, bind, lift.
  rewrite Hsplit. cbn [unpack2 fst snd]. unfold int.
  destruct Hbad as [-> | (i & -> & Hi)].
  - reflexivity.
  - replace ((0 <=? i) && (i <? len BOOK_DIRS)) with false; [reflexivity|].
    symmetry. apply andb_false_iff. destruct Hi; [left | right]; lia.
Qed.

Lemma resolve_scoped book_id i name st :
  scoped BOOK_DIRS book_id i name ->
  exists root,
    BOOK_DIRS !! Z.to_nat i = Some root /\
    resolve_book_path fs BOOK_DIRS book_id st
    = (Ok (Some (posixpath.join root [name; "book.pkl"]),
           Some (posixpath.join root [name])), st).
Proof.
  intros (idx_s & Hsplit & Hc & Hint & Hlo & Hhi).
  destruct (BOOK_DIRS !! Z.to_nat i) as [root|] eqn:Hroot.
  2:{ apply lookup_ge_None in Hroot. unfold len in Hhi. lia. }
  exists root. split; [reflexivity|].
  unfold resolve_book_path. rewrite Hc.
  unfold bind, try_except, try_explicit_index, bind, lift.
  rewrite Hsplit. cbn [unpack2 fst snd]. unfold int. rewrite Hint.
  replace ((0 <=? i) && (i <? len BOOK_DIRS)) with true
    by (symmetry; apply andb_true_iff; split; lia).
  unfold getitem. replace (i <? 0) with false by lia.
  replace (i <? 0) with false by lia. rewrite Hroot. reflexivity.
Qed.

(** Either some directory is the first to hold the snapshot, or none
    holds it. *)
Lemma first_match_or_none book_id (dirs : list string) :
  (exists k d,
      dirs !! k = Some d /\
      path_exists fs (snapshot_under d book_id) = true /\
      forall j d', (j < k)%nat -> dirs !! j = Some d' ->
                   path_exists fs (snapshot_under d' book_id) = false) \/
  (forall d, d ∈ dirs ->
             path_exists fs (snapshot_under d book_id) = false).
Proof.
  induction dirs as [|d0 dirs IH].
  - right. intros d Hd. inversion Hd.
  - destruct (path_exists fs (snapshot_under d0 book_id)) eqn:He.
    + left. exists 0%nat, d0. split; [reflexivity|]. split; [exact He|].
      intros j d' Hj. lia.
    + destruct IH as [(k & d & Hk & Hd & Hbefore) | Hnone].
      * left. exists (S k), d. split; [exact Hk|]. split; [exact Hd|].
        intros [|j] d' Hj Hd'.
        -- injection Hd' as <-. exact He.
        -- apply (Hbefore j); [lia | exact Hd'].
      * right. intros d Hd. apply elem_of_cons in Hd as [-> | Hd];
          [exact He | by apply Hnone].
Qed.

(** Resolution always returns: no exception leaves it, whatever the
    identifier; its result and the probes it adds to the trace depend on
    the disk only, and a path it returns is not the empty string. *)
Lemma resolve_total book_id :
  exists r t,
    forallb is_probe t = true /\
    (forall p, fst r = Some p -> PyStr.truthy p = true) /\
    forall st, resolve_book_path fs BOOK_DIRS book_id st
               = (Ok r, add_trace st t).
Proof.
  unfold resolve_book_path.
  destruct (PyStr.contains ":" book_id).
  2:{ unfold bind, ret. apply search_total. }
  unfold bind at 1, try_except, try_explicit_index, bind, lift.
  destruct (unpack2 (PyStr.split1 ":" book_id)) as [[idx_s folder]|e] eqn:Hu.
  2:{ unfold unpack2 in Hu.
      destruct (PyStr.split1 ":" book_id) as [|a [|b [|c l]]];
        inversion Hu; subst; cbn; apply search_total. }
  cbn [fst snd]. unfold int.
  destruct (PyStr.int idx_s) as [i|]; [| cbn; apply search_total].
  destruct ((0 <=? i) && (i <? len BOOK_DIRS)) eqn:Hr;
    [| cbn; apply search_total].
  apply andb_true_iff in Hr as [Hlo Hhi].
  unfold getitem. replace (i <? 0) with false by lia.
  replace (i <? 0) with false by lia.
  destruct (BOOK_DIRS !! Z.to_nat i) as [root|] eqn:Hroot.
  - exists (Some (posixpath.join root [folder; "book.pkl"]),
            Some (posixpath.join root [folder])), [].
    split; [reflexivity|]. split.
    + intros p [= <-]. apply join_snapshot_truthy.
    + intros st. by rewrite add_trace_nil.
  - apply lookup_ge_None in Hroot. unfold len in Hhi. lia.
Qed.

End Resolver.

(** C4: an identifier with a colon whose prefix is not numeric, or is an
    index out of range, is resolved exactly as the fallback scan resolves
    the whole original string (colon included) taken as the folder name, and
    resolution returns a result: it raises nothing. *)
Theorem bad_prefix_degrades_to_unscoped fs BOOK_DIRS book_id st :
  bad_prefix BOOK_DIRS book_id ->
  resolve_book_path fs BOOK_DIRS book_id st
  = search_all_directories fs book_id BOOK_DIRS st
  /\ exists r st', resolve_book_path fs BOOK_DIRS book_id st = (Ok r, st').
Proof.
  intros H. split.
  - by apply resolve_bad_prefix.
  - destruct (resolve_total fs BOOK_DIRS book_id) as (r & t & _ & _ & Hr).
    exists r, (add_trace st t). apply Hr.
Qed.

Lemma bad_prefix_degrades_to_unscoped_witness :
  bad_prefix Demo.roots2 "7:bookB_data" /\
  bad_prefix Demo.roots2 "x:bookB_data" /\
  resolve_book_path Demo.disk Demo.roots2 "7:bookB_data" initial_state
  = search_all_directories Demo.disk "7:bookB_data" Demo.roots2 initial_state
  /\
  resolve_book_path Demo.disk Demo.roots2 "x:bookB_data" initial_state
  = search_all_directories Demo.disk "x:bookB_data" Demo.roots2 initial_state.
Proof.
  assert (H7 : bad_prefix Demo.roots2 "7:bookB_data").
  { exists "7", "bookB_data". split; [reflexivity|]. split; [reflexivity|].
    right. exists 7. split; [reflexivity|]. right. cbv. discriminate. }
  assert (Hx : bad_prefix Demo.roots2 "x:bookB_data").
  { exists "x", "bookB_data". split; [reflexivity|]. split; [reflexivity|].
    left. reflexivity. }
  split; [exact H7|]. split; [exact Hx|]. split.
  - exact (proj1 (bad_prefix_degrades_to_unscoped
                    Demo.disk Demo.roots2 "7:bookB_data" initial_state H7)).
  - exact (proj1 (bad_prefix_degrades_to_unscoped
                    Demo.disk Demo.roots2 "x:bookB_data" initial_state Hx)).
Defined.

(** C5: for a scoped identifier "i:name" whose prefix reads as an index in
    range, resolution returns the snapshot path and the folder joined from
    [BOOK_DIRS[i]] and [name], on every disk and without recording a single
    probe (the state is returned as it was).  Where the root has no
    trailing slash and the name is a non-empty relative segment, the two
    paths are literally [root/name/book.pkl] and [root/name]. *)
Theorem scoped_resolution_constructs_path fs BOOK_DIRS book_id i name st :
  scoped BOOK_DIRS book_id i name ->
  exists root,
    BOOK_DIRS !! Z.to_nat i = Some root /\
    resolve_book_path fs BOOK_DIRS book_id st
    = (Ok (Some (posixpath.join root [name; "book.pkl"]),
           Some (posixpath.join root [name])), st) /\
    (root <> "" -> PyStr.endswith "/" root = false ->
     name <> "" -> PyStr.startswith "/" name = false ->
     PyStr.endswith "/" name = false ->
     posixpath.join root [name; "book.pkl"]
     = root +:+ "/" +:+ name +:+ "/book.pkl" /\
     posixpath.join root [name] = root +:+ "/" +:+ name).
Proof.
  intros H.
  destruct (resolve_scoped fs BOOK_DIRS book_id i name st H)
    as (root & Hroot & Hres).
  exists root. split; [exact Hroot|]. split; [exact Hres|].
  intros Hr He Hn Hs Hen. split.
  - by apply join_relative_snapshot.
  - by apply join_relative.
Qed.

Lemma scoped_resolution_constructs_path_witness :
  scoped Demo.roots2 "1:nothing" 1 "nothing" /\
  Demo.path_exists_on_disk "/other/nothing/book.pkl" = false /\
  resolve_book_path Demo.disk Demo.roots2 "1:nothing" initial_state
  = (Ok (Some "/other/nothing/book.pkl", Some "/other/nothing"),
     initial_state).
Proof.
  assert (H : scoped Demo.roots2 "1:nothing" 1 "nothing").
  { exists "1". split; [reflexivity|]. split; [reflexivity|].
    split; [reflexivity|]. split; cbv; [discriminate | reflexivity]. }
  split; [exact H|]. split; [reflexivity|].
  destruct (scoped_resolution_constructs_path
              Demo.disk Demo.roots2 "1:nothing" 1 "nothing" initial_state H)
    as (root & Hroot & Hres & _).
  injection Hroot as <-. exact Hres.
Defined.

(** C6: for an identifier without a colon, and for one that fell through
    to the fallback scan, resolution probes the configured directories in
    list order and returns the snapshot path and the folder under the first
    one whose snapshot exists; it returns [(None, None)] when none has it.
    One of the two cases always applies. *)
Theorem unscoped_resolution_first_match fs BOOK_DIRS book_id st :
  PyStr.contains ":" book_id = false \/ bad_prefix BOOK_DIRS book_id ->
  (forall k d,
      BOOK_DIRS !! k = Some d ->
      path_exists fs (snapshot_under d book_id) = true ->
      (forall j d', (j < k)%nat -> BOOK_DIRS !! j = Some d' ->
                    path_exists fs (snapshot_under d' book_id) = false) ->
      resolve_book_path fs BOOK_DIRS book_id st
      = (Ok (Some (snapshot_under d book_id), Some (folder_under d book_id)),
         add_trace st (map (fun d => EvExists (snapshot_under d book_id))
                           (take (S k) BOOK_DIRS)))) /\
  ((forall d, d ∈ BOOK_DIRS ->
              path_exists fs (snapshot_under d book_id) = false) ->
   resolve_book_path fs BOOK_DIRS book_id st
   = (Ok (None, None),
      add_trace st (map (fun d => EvExists (snapshot_under d book_id))
                        BOOK_DIRS))) /\
  ((exists k d,
       BOOK_DIRS !! k = Some d /\
       path_exists fs (snapshot_under d book_id) = true /\
       forall j d', (j < k)%nat -> BOOK_DIRS !! j = Some d' ->
                    path_exists fs (snapshot_under d' book_id) = false) \/
   (forall d, d ∈ BOOK_DIRS ->
              path_exists fs (snapshot_under d book_id) = false)).
Proof.
  intros H.
  assert (Hres : resolve_book_path fs BOOK_DIRS book_id st
                 = search_all_directories fs book_id BOOK_DIRS st).
  { destruct H; [by apply resolve_no_colon | by apply resolve_bad_prefix]. }
  rewrite Hres. split; [|split].
  - intros k d Hk He Hbefore. by apply search_found.
  - intros Hnone. by apply search_none.
  - apply first_match_or_none.
Qed.

Lemma unscoped_resolution_first_match_witness :
  PyStr.contains ":" "bookB_data" = false /\
  resolve_book_path Demo.disk Demo.roots2 "bookB_data" initial_state
  = (Ok (Some "/other/bookB_data/book.pkl", Some "/other/bookB_data"),
     add_trace initial_state
       [EvExists "/lib/bookB_data/book.pkl";
        EvExists "/other/bookB_data/book.pkl"]) /\
  resolve_book_path Demo.disk Demo.roots2 "bookA_data" initial_state
  = (Ok (Some "/lib/bookA_data/book.pkl", Some "/lib/bookA_data"),
     add_trace initial_state [EvExists "/lib/bookA_data/book.pkl"]) /\
  resolve_book_path Demo.disk Demo.roots2 "missing" initial_state
  = (Ok (None, None),
     add_trace initial_state
       [EvExists "/lib/missing/book.pkl"; EvExists "/other/missing/book.pkl"]).
Proof.
  split; [reflexivity|]. split; [|split].
  - refine (proj1 (unscoped_resolution_first_match Demo.disk Demo.roots2
                     "bookB_data" initial_state (or_introl eq_refl))
                  1%nat "/other" eq_refl eq_refl _).
    intros [|j] d' Hj Hd'; [| lia]. injection Hd' as <-. reflexivity.
  - refine (proj1 (unscoped_resolution_first_match Demo.disk Demo.roots2
                     "bookA_data" initial_state (or_introl eq_refl))
                  0%nat "/lib" eq_refl eq_refl _).
    intros j d' Hj. lia.
  - refine (proj1 (proj2 (unscoped_resolution_first_match Demo.disk
                     Demo.roots2 "missing" initial_state (or_introl eq_refl)))
                  _).
    intros d Hd. apply list_elem_of_In in Hd.
    destruct Hd as [<- | [<- | []]]; reflexivity.
Defined.

(** ** Loading a book *)

Section Loading.

Variable fs : FileSystem.
Variable BOOK_DIRS : list string.

Local Abbreviation error_line book_id e :=
  (EvPrint ("Error loading book " +:+ book_id +:+ ": " +:+ exn_str e)).

(** The function under the decorator, path by path. *)
Lemma wrapped_eq book_id st r t0 :
  resolve_book_path fs BOOK_DIRS book_id st = (Ok r, add_trace st t0) ->
  load_book_cached_wrapped fs BOOK_DIRS book_id st
  = match fst r with
    | None => (Ok None, add_trace st t0)
    | Some p =>
        if negb (PyStr.truthy p) then (Ok None, add_trace st t0)
        else if negb (path_exists fs p)
        then (Ok None, add_trace st (t0 ++ [EvExists p]))
        else match unpickle fs p with
             | Ok b =>
                 (Ok (Some b),
                  add_trace st (t0 ++ [EvExists p; EvUnpickle p]))
             | Raise e =>
                 if is_Exception e
                 then (Ok None,
                       add_trace st (t0 ++ [EvExists p; EvUnpickle p;
                                            error_line book_id e]))
                 else (Raise e,
                       add_trace st (t0 ++ [EvExists p; EvUnpickle p]))
             end
    end.
Proof.
  intros Hres. unfold load_book_cached_wrapped.
  rewrite (bind_ok _ _ _ _ _ Hres).
  destruct (fst r) as [p|]; [|reflexivity].
  destruct (PyStr.truthy p); cbn [negb]; [|reflexivity].
  rewrite (bind_ok _ _ _ _ _ (os_path_exists_eq _ _ _)).
  rewrite add_trace_app.
  destruct (path_exists fs p); cbn [negb]; [|reflexivity].
  unfold try_except, bind at 1. rewrite open_and_pickle_load_eq.
  rewrite add_trace_app, <- app_assoc. cbn [app].
  destruct (unpickle fs p) as [b|e]; [reflexivity|].
  destruct (is_Exception e); [|reflexivity].
  unfold bind, print. rewrite emit_add_trace, add_trace_app.
  unfold ret. by rewrite <- !app_assoc.
Qed.

(** Its outcome and the events it adds depend on the disk only; it opens
    at most one snapshot; what it raises is no [Exception]. *)
Lemma wrapped_total book_id :
  exists out t,
    (forall st, load_book_cached_wrapped fs BOOK_DIRS book_id st
                = (out, add_trace st t)) /\
    (List.length (List.filter is_unpickle_event t) <= 1)%nat /\
    (forall e, out = Raise e -> is_Exception e = false).
Proof.
  destruct (resolve_total fs BOOK_DIRS book_id) as (r & t0 & Ht0 & _ & Hres).
  assert (Hnone : List.filter is_unpickle_event t0 = []).
  { clear Hres. induction t0 as [|[] t0 IH]; cbn in *;
      try discriminate; auto. }
  assert (Hlen : forall t1, List.length
                   (List.filter is_unpickle_event (t0 ++ t1))
                 = List.length (List.filter is_unpickle_event t1)).
  { intros t1. by rewrite List.filter_app, Hnone. }
  destruct (fst r) as [p|] eqn:Hp.
  2:{ exists (Ok None), t0. split; [|split].
      - intros st. rewrite (wrapped_eq _ _ _ _ (Hres st)), Hp. reflexivity.
      - rewrite Hnone. cbn. lia.
      - discriminate. }
  destruct (PyStr.truthy p) eqn:Htr.
  2:{ exists (Ok None), t0. split; [|split].
      - intros st. rewrite (wrapped_eq _ _ _ _ (Hres st)), Hp, Htr.
        reflexivity.
      - rewrite Hnone. cbn. lia.
      - discriminate. }
  destruct (path_exists fs p) eqn:He.
  2:{ exists (Ok None), (t0 ++ [EvExists p])%list. split; [|split].
      - intros st. rewrite (wrapped_eq _ _ _ _ (Hres st)), Hp, Htr, He.
        reflexivity.
      - rewrite Hlen. cbn. lia.
      - discriminate. }
  destruct (unpickle fs p) as [b|e] eqn:Hu.
  { exists (Ok (Some b)), (t0 ++ [EvExists p; EvUnpickle p])%list.
    split; [|split].
    - intros st. rewrite (wrapped_eq _ _ _ _ (Hres st)), Hp, Htr, He, Hu.
      reflexivity.
    - rewrite Hlen. cbn. lia.
    - discriminate. }
  destruct (is_Exception e) eqn:Hexc.
  - exists (Ok None),
      (t0 ++ [EvExists p; EvUnpickle p; error_line book_id e])%list.
    split; [|split].
    + intros st.
      rewrite (wrapped_eq _ _ _ _ (Hres st)), Hp, Htr, He, Hu, Hexc.
      reflexivity.
    + rewrite Hlen. cbn. lia.
    + discriminate.
  - exists (Raise e), (t0 ++ [EvExists p; EvUnpickle p])%list. split; [|split].
    + intros st.
      rewrite (wrapped_eq _ _ _ _ (Hres st)), Hp, Htr, He, Hu, Hexc.
      reflexivity.
    + rewrite Hlen. cbn. lia.
    + intros e' [= <-]. exact Hexc.
Qed.

(** A hit returns the stored value and moves the entry to the front; the
    trace is left as it was. *)
Lemma load_hit book_id st v :
  LRU.get book_id (lru st) = Some v ->
  load_book_cached fs BOOK_DIRS book_id st
  = (Ok v, {| lru := LRU.touch book_id v (lru st); hits := S (hits st);
              misses := misses st; trace := trace st |}).
Proof.
  intros H. unfold load_book_cached, lru_cache_wrapper. by rewrite H.
Qed.

(** A miss runs the function under the decorator once and stores what it
    returns; what it raises is stored nowhere. *)
Lemma load_miss book_id st out t :
  LRU.get book_id (lru st) = None ->
  (forall st, load_book_cached_wrapped fs BOOK_DIRS book_id st
              = (out, add_trace st t)) ->
  load_book_cached fs BOOK_DIRS book_id st
  = match out with
    | Ok v =>
        (Ok v, {| lru := LRU.put book_id v (lru st); hits := hits st;
                  misses := S (misses st); trace := trace st ++ t |})
    | Raise e =>
        (Raise e, {| lru := lru st; hits := hits st;
                     misses := S (misses st); trace := trace st ++ t |})
    end.
Proof.
  intros H Hw. unfold load_book_cached, lru_cache_wrapper.
  rewrite H, Hw. destruct out; reflexivity.
Qed.

Lemma get_put_miss book_id v c :
  LRU.get book_id c = None -> LRU.get book_id (LRU.put book_id v c) = Some v.
Proof.
  intros H. unfold LRU.put. rewrite H.
  destruct (LRU.full c); cbn; by rewrite String.eqb_refl.
Qed.

Lemma get_touch book_id v c :
  LRU.get book_id (LRU.touch book_id v c) = Some v.
Proof. unfold LRU.touch. cbn. by rewrite String.eqb_refl. Qed.

(** With errors only, the function under the decorator returns, and it
    opens a snapshot exactly when the resolved one exists. *)
Lemma wrapped_ok book_id :
  errors_only fs ->
  exists v t,
    (forall st, load_book_cached_wrapped fs BOOK_DIRS book_id st
                = (Ok v, add_trace st t)) /\
    forall st, List.length (List.filter is_unpickle_event t)
               = if snapshot_exists fs BOOK_DIRS book_id st then 1%nat
                 else 0%nat.
Proof.
  intros Herr.
  destruct (resolve_total fs BOOK_DIRS book_id) as (r & t0 & Ht0 & Htr & Hres).
  assert (Hnone : List.filter is_unpickle_event t0 = []).
  { clear Hres. induction t0 as [|[] t0 IH]; cbn in *;
      try discriminate; auto. }
  assert (Hlen : forall t1, List.length
                   (List.filter is_unpickle_event (t0 ++ t1))
                 = List.length (List.filter is_unpickle_event t1)).
  { intros t1. by rewrite List.filter_app, Hnone. }
  assert (Hsnap : forall st, snapshot_exists fs BOOK_DIRS book_id st
                  = match fst r with
                    | Some p => path_exists fs p
                    | None => false
                    end).
  { intros st. unfold snapshot_exists. rewrite Hres. cbn [fst].
    destruct r as [[p|] f]; reflexivity. }
  destruct (fst r) as [p|] eqn:Hp.
  2:{ exists None, t0. split.
      - intros st. rewrite (wrapped_eq _ _ _ _ (Hres st)), Hp. reflexivity.
      - intros st. by rewrite Hsnap, Hnone. }
  destruct (path_exists fs p) eqn:He.
  2:{ exists None, (t0 ++ [EvExists p])%list. split.
      - intros st.
        rewrite (wrapped_eq _ _ _ _ (Hres st)), Hp, (Htr p eq_refl), He.
        reflexivity.
      - intros st. by rewrite Hsnap, Hlen. }
  destruct (unpickle fs p) as [b|e] eqn:Hu.
  - exists (Some b), (t0 ++ [EvExists p; EvUnpickle p])%list. split.
    + intros st.
      rewrite (wrapped_eq _ _ _ _ (Hres st)), Hp, (Htr p eq_refl), He, Hu.
      reflexivity.
    + intros st. by rewrite Hsnap, Hlen.
  - exists None,
      (t0 ++ [EvExists p; EvUnpickle p; error_line book_id e])%list.
    split.
    + intros st.
      rewrite (wrapped_eq _ _ _ _ (Hres st)), Hp, (Htr p eq_refl), He, Hu.
      rewrite (Herr _ _ Hu). reflexivity.
    + intros st. by rewrite Hsnap, Hlen.
Qed.

(** When opening a snapshot raises errors only, a lookup returns. *)
Lemma load_returns book_id st :
errors_only fs ->
exists v st', load_book_cached fs BOOK_DIRS book_id st = (Ok v, st').
Proof.
intros Herr.
destruct (LRU.get book_id (lru st)) as [v|] eqn:Hget.
- rewrite (load_hit _ _ _ Hget). eauto.
- destruct (wrapped_ok book_id Herr) as (v & t & Hw & _).
  rewrite (load_miss _ _ _ _ Hget Hw). eauto.
Qed.

End Loading.

(** C7: [read_chapter] on a book the cache reports absent raises the 404
    "Book not found"; on a book with N chapters every index outside [0, N)
    raises the 404 "Chapter not found"; every index inside renders that
    chapter with [prev_idx] absent at index 0 and [index - 1] otherwise,
    and [next_idx] absent at index N - 1 and [index + 1] otherwise. *)
Theorem chapter_navigation_boundaries
    fs BOOK_DIRS request book_id chapter_index st ob st1 :
  load_book_cached fs BOOK_DIRS book_id st = (Ok ob, st1) ->
  match ob with
  | None =>
      read_chapter fs BOOK_DIRS request book_id chapter_index st
      = (Raise (HTTPException 404 "Book not found"), st1)
  | Some book =>
      let N := len (spine book) in
      (chapter_index < 0 \/ N <= chapter_index ->
       read_chapter fs BOOK_DIRS request book_id chapter_index st
       = (Raise (HTTPException 404 "Chapter not found"), st1)) /\
      (0 <= chapter_index < N ->
       exists current_chapter,
         spine book !! Z.to_nat chapter_index = Some current_chapter /\
         read_chapter fs BOOK_DIRS request book_id chapter_index st
         = (Ok (TemplateResponse "reader.html"
                  (CtxReader request book current_chapter chapter_index
                     book_id
                     (if chapter_index =? 0 then None
                      else Some (chapter_index - 1))
                     (if chapter_index =? N - 1 then None
                      else Some (chapter_index + 1)))),
            st1))
  end.
Proof.
  intros Hload. unfold read_chapter. rewrite (bind_ok _ _ _ _ _ Hload).
  destruct ob as [book|]; [|reflexivity].
  cbv zeta. set (N := len (spine book)). split.
  - intros Hout.
    replace ((chapter_index <? 0) || (N <=? chapter_index))
      with true; [reflexivity|].
    symmetry. apply orb_true_iff. destruct Hout; [left | right]; lia.
  - intros [Hlo Hhi].
    replace ((chapter_index <? 0) || (N <=? chapter_index))
      with false by (symmetry; apply orb_false_iff; split; lia).
    destruct (spine book !! Z.to_nat chapter_index) as [ch|] eqn:Hch.
    2:{ apply lookup_ge_None in Hch. subst N. unfold len in Hhi. lia. }
    exists ch. split; [reflexivity|].
    unfold bind, lift, getitem.
    replace (chapter_index <? 0) with false by lia.
    replace (chapter_index <? 0) with false by lia.
    rewrite Hch. unfold ret.
    replace (0 <? chapter_index) with (negb (chapter_index =? 0)) by lia.
    replace (chapter_index <? N - 1) with (negb (chapter_index =? N - 1))
      by lia.
    destruct (chapter_index =? 0), (chapter_index =? N - 1); reflexivity.
Qed.

Lemma chapter_navigation_boundaries_witness :
  (exists st1,
      read_chapter Demo.disk Demo.roots1 Demo.request "0:bookA_data" 2
                   initial_state
      = (Ok (TemplateResponse "reader.html"
               (CtxReader Demo.request Demo.bookA (Demo.chapter 2 "Three") 2
                          "0:bookA_data" (Some 1) None)), st1)) /\
  (exists st1,
      read_chapter Demo.disk Demo.roots1 Demo.request "0:bookA_data" 5
                   initial_state
      = (Raise (HTTPException 404 "Chapter not found"), st1)) /\
  (exists st1,
      read_chapter Demo.disk Demo.roots1 Demo.request "0:nothing" 0
                   initial_state
      = (Raise (HTTPException 404 "Book not found"), st1)).
Proof.
  pose (stA := snd (load_book_cached Demo.disk Demo.roots1 "0:bookA_data"
                                     initial_state)).
  pose (stN := snd (load_book_cached Demo.disk Demo.roots1 "0:nothing"
                                     initial_state)).
  assert (HA : load_book_cached Demo.disk Demo.roots1 "0:bookA_data"
                                initial_state = (Ok (Some Demo.bookA), stA))
    by reflexivity.
  assert (HN : load_book_cached Demo.disk Demo.roots1 "0:nothing"
                                initial_state = (Ok None, stN))
    by reflexivity.
  split; [|split].
  - exists stA.
    destruct (proj2 (chapter_navigation_boundaries Demo.disk Demo.roots1
                       Demo.request "0:bookA_data" 2 initial_state _ _ HA))
      as (ch & Hch & Hr).
    + split; [lia | reflexivity].
    + injection Hch as <-. exact Hr.
  - exists stA.
    apply (proj1 (chapter_navigation_boundaries Demo.disk Demo.roots1
                    Demo.request "0:bookA_data" 5 initial_state _ _ HA)).
    right. cbv. discriminate.
  - exists stN.
    exact (chapter_navigation_boundaries Demo.disk Demo.roots1
             Demo.request "0:nothing" 0 initial_state _ _ HN).
Defined.

(** C9: when the resolved snapshot of an identifier exists and opening or
    deserializing it raises an error, a lookup that misses the cache prints
    the failure, returns absence and stores absence under the identifier;
    nothing is raised, and the chapter endpoint answers with the 404
    "Book not found" of an unknown book. *)
Theorem load_failure_is_cached_absence fs BOOK_DIRS book_id st p folder e :
  LRU.get book_id (lru st) = None ->
  fst (resolve_book_path fs BOOK_DIRS book_id st) = Ok (Some p, folder) ->
  path_exists fs p = true ->
  unpickle fs p = Raise e ->
  is_Exception e = true ->
  exists t st',
    load_book_cached fs BOOK_DIRS book_id st = (Ok None, st') /\
    trace st'
    = (trace st ++ t ++
       [EvUnpickle p;
        EvPrint ("Error loading book " +:+ book_id +:+ ": " +:+ exn_str e)])%list
    /\
    LRU.get book_id (lru st') = Some None /\
    forall request chapter_index,
      read_chapter fs BOOK_DIRS request book_id chapter_index st
      = (Raise (HTTPException 404 "Book not found"), st').
Proof.
  intros Hmiss Hp He Hu Hexc.
  destruct (resolve_total fs BOOK_DIRS book_id) as (r & t0 & _ & Htr & Hres).
  rewrite Hres in Hp. cbn [fst] in Hp. injection Hp as ->.
  assert (Hw : forall st0,
             load_book_cached_wrapped fs BOOK_DIRS book_id st0
             = (Ok None,
                add_trace st0
                  (t0 ++ [EvExists p; EvUnpickle p;
                          EvPrint ("Error loading book " +:+ book_id +:+ ": "
                                   +:+ exn_str e)]))).
  { intros st0. rewrite (wrapped_eq _ _ _ _ _ _ (Hres st0)). cbn [fst].
    rewrite (Htr p eq_refl), He, Hu, Hexc. reflexivity. }
  pose proof (load_miss fs BOOK_DIRS _ _ _ _ Hmiss Hw) as Hload.
  cbv iota in Hload.
  eexists (t0 ++ [EvExists p])%list, _. split; [exact Hload|].
  split; [|split].
  - cbn [trace]. by rewrite <- !app_assoc.
  - cbn [lru]. by apply get_put_miss.
  - intros request chapter_index. unfold read_chapter.
    by rewrite (bind_ok _ _ _ _ _ Hload).
Qed.

Lemma load_failure_is_cached_absence_witness :
  LRU.get "0:bad_data" (lru initial_state) = None /\
  path_exists Demo.disk "/lib/bad_data/book.pkl" = true /\
  exists st',
    load_book_cached Demo.disk Demo.roots1 "0:bad_data" initial_state
    = (Ok None, st') /\
    trace st'
    = [EvExists "/lib/bad_data/book.pkl"; EvUnpickle "/lib/bad_data/book.pkl";
       EvPrint "Error loading book 0:bad_data: invalid load key, 'x'."] /\
    LRU.get "0:bad_data" (lru st') = Some None.
Proof.
  split; [reflexivity|]. split; [reflexivity|].
  destruct (load_failure_is_cached_absence Demo.disk Demo.roots1 "0:bad_data"
              initial_state "/lib/bad_data/book.pkl" (Some "/lib/bad_data")
              (PyExc UnpicklingError "invalid load key, 'x'.")
              eq_refl eq_refl eq_refl eq_refl eq_refl)
    as (t & st' & Hload & Htrace & Hget & _).
  exists st'. split; [exact Hload|]. split; [|exact Hget].
  assert (Hst : st' = snd (load_book_cached Demo.disk Demo.roots1
                             "0:bad_data" initial_state))
    by (by rewrite Hload).
  rewrite Hst. reflexivity.
Defined.

(** ** The store of the cache *)

Lemma last_use_from_bound t h k :
  (last_use_from (S t) h k <= t + List.length h)%nat.
Proof.
  revert t. induction h as [|x h IH]; intros t; cbn [last_use_from].
  - lia.
  - specialize (IH (S t)). cbn [List.length].
    destruct (last_use_from (S (S t)) h k); [|lia].
    destruct (String.eqb x k); lia.
Qed.

Lemma last_use_from_app_same t h k :
  last_use_from (S t) (h ++ [k]) k = (S t + List.length h)%nat.
Proof.
  revert t. induction h as [|x h IH]; intros t.
  - cbn. rewrite String.eqb_refl. lia.
  - cbn [app last_use_from List.length]. rewrite IH. cbn. lia.
Qed.

Lemma last_use_from_app_other t h k k' :
  k' <> k -> last_use_from t (h ++ [k]) k' = last_use_from t h k'.
Proof.
  intros Hne. revert t. induction h as [|x h IH]; intros t.
  - cbn. apply String.eqb_neq in Hne. rewrite String.eqb_sym in Hne.
    by rewrite Hne.
  - cbn [app last_use_from]. by rewrite IH.
Qed.

Lemma last_use_le h k : (last_use h k <= List.length h)%nat.
Proof. apply (last_use_from_bound 0). Qed.

Lemma last_use_app_same h k : last_use (h ++ [k]) k = S (List.length h).
Proof. apply (last_use_from_app_same 0). Qed.

Lemma last_use_app_other h k k' :
  k' <> k -> last_use (h ++ [k]) k' = last_use h k'.
Proof. apply last_use_from_app_other. Qed.

Lemma get_None_keys k c : LRU.get k c = None <-> k ∉ LRU.keys c.
Proof.
  induction c as [|[k0 v0] c IH]; cbn.
  - split; [intros _ H; inversion H | reflexivity].
  - destruct (String.eqb k0 k) eqn:E.
    + apply String.eqb_eq in E as ->. split; [discriminate|].
      intros H. exfalso. apply H. left.
    + apply String.eqb_neq in E. rewrite IH. rewrite not_elem_of_cons.
      split; [intros H; split; [congruence | exact H] | intros [_ H]; exact H].
Qed.

Lemma keys_remove_subset k c x :
  x ∈ LRU.keys (LRU.remove k c) -> x ∈ LRU.keys c /\ x <> k.
Proof.
  induction c as [|[k0 v0] c IH]; cbn.
  - intros H. inversion H.
  - destruct (String.eqb k0 k) eqn:E.
    + intros H. destruct (IH H). split; [by right | assumption].
    + apply String.eqb_neq in E. cbn. intros H.
      apply elem_of_cons in H as [-> | H].
      * split; [left | exact E].
      * destruct (IH H). split; [by right | assumption].
Qed.

Lemma length_remove_le k c :
  (List.length (LRU.remove k c) <= List.length c)%nat.
Proof.
  induction c as [|[k0 v0] c IH]; cbn; [lia|].
  destruct (String.eqb k0 k); cbn; lia.
Qed.

Lemma length_remove_lt k c v :
  LRU.get k c = Some v ->
  (List.length (LRU.remove k c) < List.length c)%nat.
Proof.
  induction c as [|[k0 v0] c IH]; cbn; [discriminate|].
  destruct (String.eqb k0 k).
  - intros _. pose proof (length_remove_le k c). lia.
  - intros H. specialize (IH H). cbn. lia.
Qed.

Section Sorted.

Variable R : string -> string -> Prop.

Lemma sorted_remove k c :
  StronglySorted R (LRU.keys c) ->
  StronglySorted R (LRU.keys (LRU.remove k c)).
Proof.
  induction c as [|[k0 v0] c IH]; cbn; [trivial|].
  intros H. apply StronglySorted_inv in H as [Hs Hall].
  destruct (String.eqb k0 k); [by apply IH|].
  cbn. constructor; [by apply IH|].
  apply List.Forall_forall. intros x Hx. apply list_elem_of_In in Hx.
  apply keys_remove_subset in Hx as [Hx _].
  rewrite List.Forall_forall in Hall. apply Hall.
  by apply list_elem_of_In.
Qed.

Lemma sorted_removelast (l : list string) :
  StronglySorted R l -> StronglySorted R (removelast l).
Proof.
  induction 1 as [|a l Hs IH Hall]; cbn; [constructor|].
  destruct l as [|b l]; [constructor|].
  constructor; [exact IH|].
  apply List.Forall_forall. intros x Hx.
  rewrite List.Forall_forall in Hall. apply Hall.
  clear -Hx. revert Hx. generalize (b :: l). intros m.
  induction m as [|y m IHm]; cbn; [trivial|].
  destruct m; [intros [] | intros [-> | H]; [by left | right; by apply IHm]].
Qed.

Lemma sorted_app_last (l : list string) x :
  StronglySorted R (l ++ [x]) -> List.Forall (fun a => R a x) l.
Proof.
  induction l as [|a l IH]; cbn; [constructor|].
  intros H. apply StronglySorted_inv in H as [Hs Hall].
  constructor; [|by apply IH].
  rewrite List.Forall_forall in Hall. apply Hall.
  apply List.in_or_app. right. by left.
Qed.

End Sorted.

Lemma keys_removelast c : LRU.keys (removelast c) = removelast (LRU.keys c).
Proof.
  induction c as [|e c IH]; [reflexivity|].
  cbn. destruct c; [reflexivity|]. cbn in *. by rewrite IH.
Qed.

Lemma length_removelast {A} (l : list A) :
  List.length (removelast l) = pred (List.length l).
Proof.
  induction l as [|a l IH]; [reflexivity|].
  cbn. destruct l; [reflexivity|]. cbn in *. by rewrite IH.
Qed.

(** One more lookup: keys other than the one looked up keep their order. *)
Lemma sorted_after_lookup h k (l : list string) :
  k ∉ l ->
  StronglySorted (more_recent h) l ->
  StronglySorted (more_recent (h ++ [k])) (k :: l).
Proof.
  intros Hk Hs. constructor.
  - induction Hs as [|a l Hs IH Hall]; [constructor|].
    apply not_elem_of_cons in Hk as [Hka Hk].
    constructor; [by apply IH|].
    apply List.Forall_forall. intros x Hx.
    rewrite List.Forall_forall in Hall. specialize (Hall x Hx).
    unfold more_recent in *.
    rewrite !last_use_app_other; [exact Hall | congruence |].
    intros ->. apply Hk. by apply list_elem_of_In.
  - apply List.Forall_forall. intros x Hx. unfold more_recent.
    rewrite last_use_app_same, last_use_app_other.
    + pose proof (last_use_le h x). lia.
    + intros ->. apply Hk. by apply list_elem_of_In.
Qed.

Lemma sorted_after_failed_lookup h k (l : list string) :
  k ∉ l ->
  StronglySorted (more_recent h) l ->
  StronglySorted (more_recent (h ++ [k])) l.
Proof.
  intros Hk Hs.
  pose proof (sorted_after_lookup h k l Hk Hs) as H.
  by apply StronglySorted_inv in H as [H _].
Qed.

Section Cache.

Variable fs : FileSystem.
Variable BOOK_DIRS : list string.

Lemma cache_ok_step h k st :
  cache_ok h (lru st) ->
  cache_ok (h ++ [k]) (lru (snd (load_book_cached fs BOOK_DIRS k st))).
Proof.
  intros [Hs Hlen].
  destruct (LRU.get k (lru st)) as [v|] eqn:Hget.
  - rewrite (load_hit _ _ _ _ _ Hget). cbn [snd lru]. unfold LRU.touch.
    split.
    + change (LRU.keys ((k, v) :: LRU.remove k (lru st)))
        with (k :: LRU.keys (LRU.remove k (lru st))).
      apply sorted_after_lookup; [|by apply sorted_remove].
      intros H. by apply keys_remove_subset in H as [_ H].
    + pose proof (length_remove_lt _ _ _ Hget). cbn [List.length]. lia.
  - destruct (wrapped_total fs BOOK_DIRS k) as (out & t & Hw & _).
    rewrite (load_miss _ _ _ _ _ _ Hget Hw).
    apply get_None_keys in Hget as Hnotin.
    destruct out as [v|e]; cbn [snd lru].
    2:{ split; [by apply sorted_after_failed_lookup | exact Hlen]. }
    unfold LRU.put. rewrite Hget. unfold LRU.full.
    destruct (LRU.maxsize <=? List.length (lru st))%nat eqn:Hfull.
    + apply Nat.leb_le in Hfull. split.
      * change (LRU.keys ((k, v) :: removelast (lru st)))
          with (k :: LRU.keys (removelast (lru st))).
        rewrite keys_removelast.
        apply sorted_after_lookup; [|by apply sorted_removelast].
        intros H. apply Hnotin. apply list_elem_of_In.
        apply list_elem_of_In in H. clear -H. revert H.
        generalize (LRU.keys (lru st)). intros m.
        induction m as [|y m IHm]; cbn; [trivial|].
        destruct m; [intros [] |
                     intros [-> | H]; [by left | right; by apply IHm]].
      * cbn [List.length]. rewrite length_removelast.
        unfold LRU.maxsize in *. lia.
    + apply Nat.leb_gt in Hfull. split.
      * by apply sorted_after_lookup.
      * cbn [List.length]. lia.
Qed.

Lemma run_lookups_app h k st :
  run_lookups fs BOOK_DIRS (h ++ [k]) st
  = snd (load_book_cached fs BOOK_DIRS k (run_lookups fs BOOK_DIRS h st)).
Proof. unfold run_lookups. by rewrite fold_left_app. Qed.

Lemma cache_ok_run h :
  cache_ok h (lru (run_lookups fs BOOK_DIRS h initial_state)).
Proof.
  induction h as [|k h IH] using rev_ind.
  - split; [constructor | cbn; lia].
  - rewrite run_lookups_app. by apply cache_ok_step.
Qed.

End Cache.

(** C2: after any sequence of lookups the cache holds at most 10 entries;
    and when it holds 10 and a lookup of an identifier that is not among
    them stores its result, the entry that goes is the one whose last
    lookup (hit or insertion) is older than that of each of the nine
    others, which all stay, behind the new entry. *)
Theorem lru_capacity_and_eviction fs BOOK_DIRS (h : list string) :
  let st := run_lookups fs BOOK_DIRS h initial_state in
  (List.length (lru st) <= 10)%nat /\
  forall k v st',
    List.length (lru st) = 10%nat ->
    LRU.get k (lru st) = None ->
    load_book_cached fs BOOK_DIRS k st = (Ok v, st') ->
    exists victim rest,
      lru st = (rest ++ [victim])%list /\
      lru st' = (k, v) :: rest /\
      forall e, e ∈ rest -> (last_use h (fst victim) < last_use h (fst e))%nat.
Proof.
  intros st. destruct (cache_ok_run fs BOOK_DIRS h) as [Hs Hlen].
  fold st in Hs, Hlen. split; [exact Hlen|].
  intros k v st' Hfull Hget Hload.
  destruct (wrapped_total fs BOOK_DIRS k) as (out & t & Hw & _).
  rewrite (load_miss _ _ _ _ _ _ Hget Hw) in Hload.
  destruct out as [v0|e]; [|discriminate].
  injection Hload as -> <-. cbn [lru].
  unfold LRU.put. rewrite Hget. unfold LRU.full, LRU.maxsize.
  rewrite Hfull. cbn [Nat.leb].
  destruct (lru st) as [|e0 c] eqn:Hc; [discriminate|].
  assert (Hne : e0 :: c <> []) by discriminate.
  pose proof (app_removelast_last e0 Hne) as Hsplit.
  exists (List.last (e0 :: c) e0), (removelast (e0 :: c)).
  split; [exact Hsplit|]. split; [reflexivity|].
  intros e He.
  rewrite Hsplit in Hs. unfold LRU.keys in Hs. rewrite map_app in Hs.
  apply sorted_app_last in Hs. rewrite List.Forall_forall in Hs.
  apply Hs. apply List.in_map. by apply list_elem_of_In.
Qed.

Lemma lru_capacity_and_eviction_witness :
  let h := (Demo.ten ++ ["a"])%list in
  let st := run_lookups Demo.disk Demo.roots2 h initial_state in
  LRU.keys (lru st) = ["a"; "j"; "i"; "h"; "g"; "f"; "e"; "d"; "c"; "b"] /\
  LRU.get "k" (lru st) = None /\
  exists victim rest st',
    load_book_cached Demo.disk Demo.roots2 "k" st = (Ok None, st') /\
    lru st = (rest ++ [victim])%list /\
    lru st' = ("k", None) :: rest /\
    fst victim = "b" /\
    forall e, e ∈ rest -> (last_use h (fst victim) < last_use h (fst e))%nat.
Proof.
  intros h st. split; [reflexivity|]. split; [reflexivity|].
  pose (st' := snd (load_book_cached Demo.disk Demo.roots2 "k" st)).
  assert (Hload : load_book_cached Demo.disk Demo.roots2 "k" st
                  = (Ok None, st')) by reflexivity.
  destruct (proj2 (lru_capacity_and_eviction Demo.disk Demo.roots2 h)
              "k" None st' eq_refl eq_refl Hload)
    as (victim & rest & Hsplit & Hafter & Hlru).
  exists victim, rest, st'.
  split; [exact Hload|]. split; [exact Hsplit|]. split; [exact Hafter|].
  split; [|exact Hlru].
  assert (Hlast : List.last (lru (run_lookups Demo.disk Demo.roots2 h
                                    initial_state))
                            victim = victim).
  { rewrite Hsplit. apply last_last. }
  rewrite <- Hlast. reflexivity.
Defined.

(** ** The library page *)

Section Library.

Variable fs : FileSystem.
Variable BOOK_DIRS : list string.

(** With errors only, the loop over the directory entries returns. *)
Lemma list_books_returns target_dir target_idx items :
  errors_only fs ->
  forall books st,
  exists bs st',
    list_books fs BOOK_DIRS target_dir target_idx items books st
    = (Ok bs, st').
Proof.
  intros Herr. induction items as [|item items IH]; intros books st.
  - cbn. unfold ret. eauto.
  - cbn [list_books]. destruct (PyStr.endswith "_data" item); [|apply IH].
    rewrite (bind_ok _ _ _ _ _ (os_path_isdir_eq _ _ _)).
    destruct (path_isdir fs _); [|apply IH].
    destruct (load_returns fs BOOK_DIRS
                (PyStr.of_int target_idx +:+ ":" +:+ item)
                (add_trace st [EvIsdir (posixpath.join target_dir [item])])
                Herr) as (v & st' & Hload).
    rewrite (bind_ok _ _ _ _ _ Hload).
    destruct v; apply IH.
Qed.

Lemma library_view_out_of_range request d st :
  d < 0 \/ len BOOK_DIRS <= d ->
  library_view fs BOOK_DIRS request (Some d) st
  = library_view fs BOOK_DIRS request (Some 0) st.
Proof.
  intros Hd. unfold library_view. rewrite !andb_false_r.
  replace ((d <? 0) || (len BOOK_DIRS <=? d)) with true
    by (symmetry; apply orb_true_iff; destruct Hd; [left | right]; lia).
  destruct ((0 <? 0) || (len BOOK_DIRS <=? 0)); reflexivity.
Qed.

Lemma library_view_first_root request st root :
  BOOK_DIRS !! 0%nat = Some root ->
  errors_only fs ->
  (path_exists fs root = true -> exists items, listdir fs root = Ok items) ->
  exists books st',
    library_view fs BOOK_DIRS request (Some 0) st
    = (Ok (TemplateResponse "library.html" (CtxBooks request books)), st').
Proof.
  intros Hroot Herr Hlist. unfold library_view. rewrite andb_false_r.
  replace (if (0 <? 0) || (len BOOK_DIRS <=? 0) then 0 else 0) with 0
    by (by destruct (_ || _)).
  assert (Hg : lift (getitem BOOK_DIRS 0) st = (Ok root, st)).
  { unfold lift, getitem.
    change (Z.to_nat (if 0 <? 0 then 0 + len BOOK_DIRS else 0)) with 0%nat.
    change ((if 0 <? 0 then 0 + len BOOK_DIRS else 0) <? 0) with false.
    cbv iota. by rewrite Hroot. }
  rewrite (bind_ok _ _ _ _ _ Hg).
  rewrite (bind_ok _ _ _ _ _ (os_path_exists_eq _ _ _)).
  destruct (path_exists fs root) eqn:He.
  - destruct (Hlist eq_refl) as (items & Hitems).
    unfold bind at 1. unfold bind at 1. rewrite os_listdir_eq, Hitems.
    destruct (list_books_returns root 0 items Herr []
                (add_trace (add_trace st [EvExists root]) [EvListdir root]))
      as (bs & st' & Hbs).
    rewrite Hbs. unfold ret. eauto.
  - unfold bind, ret. eauto.
Qed.

End Library.

(** C10: a [dir_index] that is negative, or not below the number of
    configured directories, is answered exactly as [dir_index=0] is, down
    to the state the request leaves behind; and with at least one
    directory configured, errors only, and a first directory that can be
    listed if it exists, the answer is the library page of its books: the
    request does not fail. *)
Theorem library_view_clamps_dir_index fs BOOK_DIRS request d st :
  d < 0 \/ len BOOK_DIRS <= d ->
  library_view fs BOOK_DIRS request (Some d) st
  = library_view fs BOOK_DIRS request (Some 0) st /\
  forall root,
    BOOK_DIRS !! 0%nat = Some root ->
    errors_only fs ->
    (path_exists fs root = true -> exists items, listdir fs root = Ok items) ->
    exists books st',
      library_view fs BOOK_DIRS request (Some d) st
      = (Ok (TemplateResponse "library.html" (CtxBooks request books)), st').
Proof.
  intros Hd. split; [by apply library_view_out_of_range|].
  intros root Hroot Herr Hlist.
  rewrite library_view_out_of_range by exact Hd.
  by apply (library_view_first_root fs BOOK_DIRS request st root).
Qed.

Lemma library_view_clamps_dir_index_witness :
  library_view Demo.disk Demo.roots2 Demo.request (Some 9) initial_state
  = library_view Demo.disk Demo.roots2 Demo.request (Some 0) initial_state /\
  library_view Demo.disk Demo.roots2 Demo.request (Some (-1)) initial_state
  = library_view Demo.disk Demo.roots2 Demo.request (Some 0) initial_state /\
  fst (library_view Demo.disk Demo.roots2 Demo.request (Some 9) initial_state)
  = Ok (TemplateResponse "library.html"
          (CtxBooks Demo.request
             [{| entry_id := "0:bookA_data"; entry_title := "Book A";
                 entry_author := "Me"; entry_chapters := 3 |}])).
Proof.
  split; [|split].
  - apply (library_view_clamps_dir_index Demo.disk Demo.roots2 Demo.request 9
             initial_state).
    right. cbv. discriminate.
  - apply (library_view_clamps_dir_index Demo.disk Demo.roots2 Demo.request
             (-1) initial_state).
    left. reflexivity.
  - reflexivity.
Defined.

(** ** The chapter redirect *)

(** Whatever the identifier, the call in [redirect_to_first_chapter] fails
    while binding the parameters of [read_chapter]: the cache is not even
    consulted. *)
Lemma redirect_raises fs BOOK_DIRS book_id st :
  redirect_to_first_chapter fs BOOK_DIRS book_id st
  = (Raise (PyExc TypeError
       "read_chapter() missing 1 required positional argument: 'request'"),
     st).
Proof. reflexivity. Qed.

(** C1: for the book "0:bookA_data", which exists and has three chapters,
    [GET /read/0:bookA_data/0] renders chapter 0 while
    [GET /read/0:bookA_data] raises a [TypeError]: the handler calls
    [read_chapter] without its [request] parameter. *)
Theorem redirect_differs_from_chapter_zero :
  fst (route_read_chapter Demo.disk Demo.roots1 Demo.request
         "0:bookA_data" 0 initial_state)
  = Ok (TemplateResponse "reader.html"
          (CtxReader Demo.request Demo.bookA (Demo.chapter 0 "One") 0
                     "0:bookA_data" None (Some 1))) /\
  fst (redirect_to_first_chapter Demo.disk Demo.roots1 "0:bookA_data"
         initial_state)
  = Raise (PyExc TypeError
      "read_chapter() missing 1 required positional argument: 'request'") /\
  fst (route_read_chapter Demo.disk Demo.roots1 Demo.request
         "0:nothing" 0 initial_state)
  = Raise (HTTPException 404 "Book not found") /\
  fst (redirect_to_first_chapter Demo.disk Demo.roots1 "0:nothing"
         initial_state)
  = Raise (PyExc TypeError
      "read_chapter() missing 1 required positional argument: 'request'").
Proof. repeat split; reflexivity. Qed.

(** ** Image retrieval *)

Lemma basename_no_sep p :
  PyStr.contains "/" (posixpath.basename p) = false.
Proof.
  unfold posixpath.basename, posixpath.sep.
  assert (H : PyStr.contains "/"
                (PyStr.drop (Z.to_nat (PyStr.rfind "/" p + 1)) p) = false
              /\ -1 <= PyStr.rfind "/" p).
  { induction p as [|a p [IH Hr]]; [split; [reflexivity | cbn; lia]|].
    cbn [PyStr.rfind]. destruct (0 <=? PyStr.rfind "/" p) eqn:E.
    - apply Z.leb_le in E. split; [|lia].
      replace (Z.to_nat (PyStr.rfind "/" p + 1 + 1))
        with (S (Z.to_nat (PyStr.rfind "/" p + 1))) by lia.
      exact IH.
    - apply Z.leb_gt in E.
      assert (Hm : PyStr.rfind "/" p = -1) by lia.
      rewrite Hm in IH. change (Z.to_nat (-1 + 1)) with 0%nat in IH.
      cbn [PyStr.drop] in IH.
      destruct (Ascii.eqb a "/") eqn:Ea.
      + change (Z.to_nat (0 + 1)) with 1%nat. cbn [PyStr.drop]. by split.
      + change (Z.to_nat (-1 + 1)) with 0%nat. cbn [PyStr.drop PyStr.contains].
        rewrite Ea, IH. by split. }
  apply H.
Qed.

Lemma contains_startswith c s :
  PyStr.contains c s = false -> PyStr.startswith c s = false.
Proof. destruct s; cbn; [trivial|]. by intros [H _]%orb_false_iff. Qed.

(** The path [serve_image] probes is the folder, then [images], then the
    last component of the requested name. *)
Lemma image_path_shape folder image_name :
  folder <> "" -> PyStr.endswith "/" folder = false ->
  posixpath.join folder ["images"; posixpath.basename image_name]
  = folder +:+ "/images/" +:+ posixpath.basename image_name.
Proof.
  intros Hf He.
  change (posixpath.join folder ["images"; posixpath.basename image_name])
    with (posixpath.join2 (posixpath.join folder ["images"])
                          (posixpath.basename image_name)).
  rewrite join_relative by (assumption || reflexivity).
  unfold posixpath.join2, posixpath.sep.
  rewrite (contains_startswith _ _ (basename_no_sep image_name)).
  rewrite endswith_slash_app by discriminate.
  change (PyStr.endswith "/" ("/" +:+ "images")) with false.
  destruct folder as [|c folder]; [contradiction|].
  change (String c folder +:+ "/" +:+ "images")
    with (String c (folder +:+ "/" +:+ "images")) at 1.
  cbn [PyStr.truthy negb orb].
  rewrite !string_app_assoc. reflexivity.
Qed.

(** C8: the name "../../etc/passwd" is cut down to "passwd" and looked up
    as [/lib/bookA_data/images/passwd]; but the name ".." is its own last
    component, so [serve_image] probes and serves
    [/lib/bookA_data/images/..], which is the book folder itself and not a
    path inside its [images] folder. *)
Theorem serve_image_dotdot_leaves_images :
  posixpath.basename "../../etc/passwd" = "passwd" /\
  serve_image Demo.disk Demo.roots1 "0:bookA_data" "../../etc/passwd"
              initial_state
  = (Raise (HTTPException 404 "Image not found"),
     add_trace initial_state [EvExists "/lib/bookA_data/images/passwd"]) /\
  posixpath.basename ".." = ".." /\
  serve_image Demo.disk Demo.roots1 "0:bookA_data" ".." initial_state
  = (Ok (FileResponse "/lib/bookA_data/images/.."),
     add_trace initial_state [EvExists "/lib/bookA_data/images/.."]) /\
  posixpath.normpath "/lib/bookA_data/images/.." = "/lib/bookA_data".
Proof. repeat split; reflexivity. Qed.

(** * Further properties of the server *)

(** ** Identifiers built by the library page *)

Lemma digits_loop_acc d acc n :
  PyStr.digits_loop (Z.pos acc) n (NilEmpty.string_of_uint d)
  = Some (Z.pos (Pos.of_uint_acc d acc), (n + Decimal.nb_digits d)%nat, "").
Proof.
  revert acc n.
  induction d as [|d IH|d IH|d IH|d IH|d IH|d IH|d IH|d IH|d IH|d IH];
    intros acc n;
    [cbn; do 3 f_equal; lia | ..];
    cbn [NilEmpty.string_of_uint PyStr.digits_loop Decimal.nb_digits
         Pos.of_uint_acc];
    match goal with
    | |- context [PyStr.digit_val ?c] =>
        let v := eval vm_compute in (PyStr.digit_val c) in
        change (PyStr.digit_val c) with v
    end;
    cbv iota;
    match goal with
    | |- PyStr.digits_loop ?z _ _ = Some (Z.pos (Pos.of_uint_acc _ ?a), _, _) =>
        replace z with (Z.pos a) by lia
    end;
    rewrite IH; do 3 f_equal; lia.
Qed.

Lemma digits_loop_of_uint d n :
  PyStr.digits_loop 0 n (NilEmpty.string_of_uint d)
  = Some (Z.of_N (Pos.of_uint d), (n + Decimal.nb_digits d)%nat, "").
Proof.
  revert n.
  induction d as [|d IH|d IH|d IH|d IH|d IH|d IH|d IH|d IH|d IH|d IH];
    intros n;
    [cbn; do 3 f_equal; lia | ..];
    cbn [NilEmpty.string_of_uint PyStr.digits_loop Decimal.nb_digits
         Pos.of_uint];
    match goal with
    | |- context [PyStr.digit_val ?c] =>
        let v := eval vm_compute in (PyStr.digit_val c) in
        change (PyStr.digit_val c) with v
    end;
    cbv iota;
    [ change (0 * 10 + 0) with 0; rewrite IH; do 3 f_equal; lia | ..];
    match goal with
    | |- PyStr.digits_loop ?z _ _ = Some (Z.of_N (N.pos (Pos.of_uint_acc _ ?a)), _, _) =>
        change z with (Z.pos a)
    end;
    rewrite digits_loop_acc; cbn [Z.of_N]; do 3 f_equal; lia.
Qed.

Lemma length_string_of_uint d :
  String.length (NilEmpty.string_of_uint d) = Decimal.nb_digits d.
Proof. induction d; cbn; congruence. Qed.

Lemma map_chars_string_of_uint d :
  PyStr.map_chars PyStr.space_to_ascii (NilEmpty.string_of_uint d)
  = NilEmpty.string_of_uint d.
Proof. induction d; cbn [NilEmpty.string_of_uint PyStr.map_chars];
         [reflexivity | rewrite IHd; reflexivity ..]. Qed.

Lemma no_colon_string_of_uint d :
  PyStr.contains ":" (NilEmpty.string_of_uint d) = false.
Proof. induction d; cbn [NilEmpty.string_of_uint PyStr.contains];
         [reflexivity | rewrite IHd; reflexivity ..]. Qed.

Lemma int_string_of_uint d :
  d <> Decimal.Nil ->
  (Decimal.nb_digits d <= PyStr.int_max_str_digits)%nat ->
  PyStr.int (NilEmpty.string_of_uint d) = Some (Z.of_N (Pos.of_uint d)).
Proof.
  intros Hnil Hlen. unfold PyStr.int. rewrite map_chars_string_of_uint.
  pose proof (digits_loop_of_uint d 0) as Hloop.
  destruct d as [|d|d|d|d|d|d|d|d|d|d]; [contradiction | ..];
    cbn [NilEmpty.string_of_uint] in *;
    match goal with
    | |- context [PyStr.skip_spaces (String ?c ?x)] =>
        change (PyStr.skip_spaces (String c x)) with (String c x)
    end;
    cbv beta iota; unfold PyStr.int_unsigned;
    match goal with
    | |- context [PyStr.is_digit ?c] => change (PyStr.is_digit c) with true
    end;
    cbv beta iota; rewrite Hloop; cbn [PyStr.skip_spaces];
    (match goal with
     | |- context [(?a <? ?b)%nat] => destruct (Nat.ltb_spec a b)
     end; [cbn [Decimal.nb_digits] in *; lia | reflexivity]).
Qed.

(** Printing a non-negative [int] and reading it back gives the same
    number, as long as the printed form stays within the digit limit. *)
Lemma int_of_int n :
  0 <= n ->
  (String.length (PyStr.of_int n) <= PyStr.int_max_str_digits)%nat ->
  PyStr.int (PyStr.of_int n) = Some n.
Proof.
  intros Hn Hlen. destruct n as [|p|p]; [reflexivity | | lia].
  unfold PyStr.of_int in *. cbn [Z.to_int NilZero.string_of_int] in *.
  pose proof (Unsigned.to_uint_nonnil p) as Hnil.
  assert (Hs : NilZero.string_of_uint (Pos.to_uint p)
               = NilEmpty.string_of_uint (Pos.to_uint p)).
  { unfold NilZero.string_of_uint. by destruct (Pos.to_uint p). }
  rewrite Hs in *. rewrite length_string_of_uint in Hlen.
  rewrite int_string_of_uint by assumption.
  by rewrite DecimalPos.Unsigned.of_to.
Qed.

Lemma no_colon_of_int n : PyStr.contains ":" (PyStr.of_int n) = false.
Proof.
  unfold PyStr.of_int.
  assert (H : forall d, PyStr.contains ":" (NilZero.string_of_uint d) = false).
  { intros d. unfold NilZero.string_of_uint.
    destruct d; try apply no_colon_string_of_uint. reflexivity. }
  destruct (Z.to_int n); cbn [NilZero.string_of_int PyStr.contains];
    [apply H | rewrite H; reflexivity].
Qed.

Lemma partition_app c a b :
  PyStr.contains c a = false ->
  PyStr.partition c (a +:+ String c b) = Some (a, b).
Proof.
  induction a as [|x a IH]; intros H.
  - change ("" +:+ String c b) with (String c b).
    cbn [PyStr.partition]. by rewrite Ascii.eqb_refl.
  - cbn [PyStr.contains] in H. apply orb_false_iff in H as [Hx Ha].
    change (String x a +:+ String c b) with (String x (a +:+ String c b)).
    cbn [PyStr.partition]. rewrite Hx, (IH Ha). reflexivity.
Qed.

Lemma contains_app_sep c a b : PyStr.contains c (a +:+ String c b) = true.
Proof.
  induction a as [|x a IH].
  - change ("" +:+ String c b) with (String c b).
    cbn [PyStr.contains]. by rewrite Ascii.eqb_refl.
  - change (String x a +:+ String c b) with (String x (a +:+ String c b)).
    cbn [PyStr.contains]. rewrite IH. apply orb_true_r.
Qed.

(** The identifier of a listed book has the accepted scoped form: its
    prefix reads back as the index, and everything after the first colon
    is the directory entry, colons included. *)
Lemma scoped_id_scoped BOOK_DIRS target_idx item :
  0 <= target_idx < len BOOK_DIRS ->
  (String.length (PyStr.of_int target_idx) <= PyStr.int_max_str_digits)%nat ->
  scoped BOOK_DIRS (scoped_id target_idx item) target_idx item.
Proof.
  intros Hr Hlen. exists (PyStr.of_int target_idx).
  unfold scoped_id, PyStr.split1.
  change (":" +:+ item) with (String ":" item).
  rewrite partition_app by apply no_colon_of_int.
  split; [reflexivity|]. split; [apply contains_app_sep|].
  split; [apply int_of_int; [lia | exact Hlen] | exact Hr].
Qed.

(** X1: the identifier the library page builds for the entry [item] of the
    directory number [target_idx] resolves, without a probe, to the
    snapshot and the folder of that entry under that directory, whatever
    the entry is called (colons included). *)
Theorem listed_id_resolves_to_its_folder
    fs BOOK_DIRS target_idx item root st :
  0 <= target_idx ->
  BOOK_DIRS !! Z.to_nat target_idx = Some root ->
  (String.length (PyStr.of_int target_idx) <= PyStr.int_max_str_digits)%nat ->
  resolve_book_path fs BOOK_DIRS (scoped_id target_idx item) st
  = (Ok (Some (posixpath.join root [item; "book.pkl"]),
         Some (posixpath.join root [item])), st).
Proof.
  intros Hlo Hroot Hlen.
  assert (Hr : 0 <= target_idx < len BOOK_DIRS).
  { split; [exact Hlo|]. apply lookup_lt_Some in Hroot. unfold len. lia. }
  destruct (resolve_scoped fs BOOK_DIRS _ _ _ st
              (scoped_id_scoped BOOK_DIRS target_idx item Hr Hlen))
    as (root' & Hroot' & Hres).
  rewrite Hroot in Hroot'. injection Hroot' as <-. exact Hres.
Qed.

Lemma listed_id_resolves_to_its_folder_witness :
  resolve_book_path Demo.disk Demo.roots2 (scoped_id 1 "odd:name_data")
                    initial_state
  = (Ok (Some "/other/odd:name_data/book.pkl", Some "/other/odd:name_data"),
     initial_state).
Proof.
  apply (listed_id_resolves_to_its_folder Demo.disk Demo.roots2 1
           "odd:name_data" "/other" initial_state).
  - lia.
  - reflexivity.
  - cbv. lia.
Defined.

(** ** What the resolver returns *)

Lemma search_shape fs book_id dirs :
  forall st,
  exists r st',
    search_all_directories fs book_id dirs st = (Ok r, st') /\
    (r = (None, None) \/
     exists d,
       d ∈ dirs /\
       path_exists fs (snapshot_under d book_id) = true /\
       r = (Some (snapshot_under d book_id), Some (folder_under d book_id))).
Proof.
  induction dirs as [|d0 dirs IH]; intros st.
  - exists (None, None), st. split; [reflexivity | by left].
  - cbn [search_all_directories].
    rewrite (bind_ok _ _ _ _ _ (os_path_exists_eq _ _ _)).
    fold (snapshot_under d0 book_id). fold (folder_under d0 book_id).
    destruct (path_exists fs (snapshot_under d0 book_id)) eqn:He.
    + eexists _, _. split; [reflexivity|]. right. exists d0.
      split; [left | by split].
    + destruct (IH (add_trace st [EvExists (snapshot_under d0 book_id)]))
        as (r & st' & Hs & Hr).
      exists r, st'. split; [exact Hs|].
      destruct Hr as [-> | (d & Hd & Hex & ->)]; [by left|].
      right. exists d. split; [by right | by split].
Qed.

(** X2: [resolve_book_path] always returns, and what it returns is either
    [(None, None)] or a folder together with the [book.pkl] directly in
    it, never half a pair.  The folder is joined from a configured
    directory: from the whole identifier when the fallback found its
    snapshot on disk, or from the part after the first colon when the
    prefix is an index in range. *)
Theorem resolve_result_shape fs BOOK_DIRS book_id st :
  exists r st',
    resolve_book_path fs BOOK_DIRS book_id st = (Ok r, st') /\
    (r = (None, None) \/
     exists d name,
       d ∈ BOOK_DIRS /\
       r = (Some (posixpath.join (posixpath.join d [name]) ["book.pkl"]),
            Some (posixpath.join d [name])) /\
       ((name = book_id /\
         path_exists fs (posixpath.join d [book_id; "book.pkl"]) = true) \/
        (exists idx_s i,
            PyStr.split1 ":" book_id = [idx_s; name] /\
            PyStr.int idx_s = Some i /\
            0 <= i /\ BOOK_DIRS !! Z.to_nat i = Some d))).
Proof.
  assert (Hfallback :
            forall st0, exists r st',
              search_all_directories fs book_id BOOK_DIRS st0 = (Ok r, st') /\
              (r = (None, None) \/
               exists d name,
                 d ∈ BOOK_DIRS /\
                 r = (Some (posixpath.join (posixpath.join d [name])
                                           ["book.pkl"]),
                      Some (posixpath.join d [name])) /\
                 ((name = book_id /\
                   path_exists fs (posixpath.join d [book_id; "book.pkl"])
                   = true) \/
                  (exists idx_s i,
                      PyStr.split1 ":" book_id = [idx_s; name] /\
                      PyStr.int idx_s = Some i /\
                      0 <= i /\ BOOK_DIRS !! Z.to_nat i = Some d)))).
  { intros st0.
    destruct (search_shape fs book_id BOOK_DIRS st0) as (r & st' & Hs & Hr).
    exists r, st'. split; [exact Hs|].
    destruct Hr as [-> | (d & Hd & Hex & ->)]; [by left|].
    right. exists d, book_id. split; [exact Hd|]. split; [reflexivity|].
    left. by split. }
  unfold resolve_book_path.
  destruct (PyStr.contains ":" book_id); [|apply Hfallback].
  unfold bind at 1, try_except, try_explicit_index, bind, lift.
  destruct (unpack2 (PyStr.split1 ":" book_id)) as [[idx_s folder]|e] eqn:Hu.
  2:{ unfold unpack2 in Hu.
      destruct (PyStr.split1 ":" book_id) as [|a [|b [|c l]]];
        inversion Hu; subst; cbn; apply Hfallback. }
  assert (Hsplit : PyStr.split1 ":" book_id = [idx_s; folder]).
  { unfold unpack2 in Hu.
    destruct (PyStr.split1 ":" book_id) as [|a [|b [|c l]]];
      inversion Hu; subst; reflexivity. }
  cbn [fst snd]. unfold int.
  destruct (PyStr.int idx_s) as [i|] eqn:Hint; [| cbn; apply Hfallback].
  destruct ((0 <=? i) && (i <? len BOOK_DIRS)) eqn:Hr;
    [| cbn; apply Hfallback].
  apply andb_true_iff in Hr as [Hlo Hhi].
  unfold getitem. replace (i <? 0) with false by lia.
  replace (i <? 0) with false by lia.
  destruct (BOOK_DIRS !! Z.to_nat i) as [root|] eqn:Hroot.
  2:{ apply lookup_ge_None in Hroot. unfold len in Hhi. lia. }
  eexists _, st. split; [reflexivity|]. right. exists root, folder.
  split; [by eapply list_elem_of_lookup_2|]. split; [reflexivity|].
  right. exists idx_s, i. repeat split; try assumption. lia.
Qed.

(** X3: in a scoped identifier whose name starts with a slash the
    configured directory plays no part: the folder returned is the name
    itself and the snapshot is the [book.pkl] in it, and [serve_image]
    probes the [images] folder of that name. *)
Theorem scoped_absolute_name_ignores_root
    fs BOOK_DIRS book_id i name image_name st :
  scoped BOOK_DIRS book_id i name ->
  PyStr.startswith "/" name = true ->
  resolve_book_path fs BOOK_DIRS book_id st
  = (Ok (Some (posixpath.join name ["book.pkl"]), Some name), st) /\
  exists r,
    serve_image fs BOOK_DIRS book_id image_name st
    = (r, add_trace st
            [EvExists (posixpath.join name
                         ["images"; posixpath.basename image_name])]).
Proof.
  intros Hsc Habs.
  destruct (resolve_scoped fs BOOK_DIRS book_id i name st Hsc)
    as (root & _ & Hres).
  assert (Hj : posixpath.join root [name] = name).
  { unfold posixpath.join. cbn [fold_left]. unfold posixpath.join2.
    unfold posixpath.sep. by rewrite Habs. }
  change (posixpath.join root [name; "book.pkl"])
    with (posixpath.join (posixpath.join root [name]) ["book.pkl"]) in Hres.
  rewrite Hj in Hres. split; [exact Hres|].
  unfold serve_image. rewrite (bind_ok _ _ _ _ _ Hres). cbn [snd].
  destruct name as [|c name]; [discriminate|]. cbn [PyStr.truthy negb].
  rewrite (bind_ok _ _ _ _ _ (os_path_exists_eq _ _ _)).
  destruct (path_exists fs _); cbn [negb]; eauto.
Qed.

Lemma scoped_absolute_name_ignores_root_witness :
  scoped Demo.roots1 "0:/other/bookA_data" 0 "/other/bookA_data" /\
  resolve_book_path Demo.disk Demo.roots1 "0:/other/bookA_data" initial_state
  = (Ok (Some "/other/bookA_data/book.pkl", Some "/other/bookA_data"),
     initial_state).
Proof.
  assert (H : scoped Demo.roots1 "0:/other/bookA_data" 0 "/other/bookA_data").
  { exists "0". split; [reflexivity|]. split; [reflexivity|].
    split; [reflexivity|]. split; cbv; [discriminate | reflexivity]. }
  split; [exact H|].
  exact (proj1 (scoped_absolute_name_ignores_root Demo.disk Demo.roots1
                  "0:/other/bookA_data" 0 "/other/bookA_data" "cover.png"
                  initial_state H eq_refl)).
Defined.

(** ** Image retrieval *)

(** X4: whatever is asked of it, [serve_image] either raises one of its
    two 404 exceptions or returns a [FileResponse] for a path that exists
    and is the resolved folder joined with [images] and the last component
    of the requested name.  All it does to the state is to add existence
    probes: it loads and caches nothing. *)
Theorem serve_image_outcomes fs BOOK_DIRS book_id image_name st :
  exists r t,
    serve_image fs BOOK_DIRS book_id image_name st = (r, add_trace st t) /\
    forallb is_probe t = true /\
    (r = Raise (HTTPException 404 "Book path not found") \/
     r = Raise (HTTPException 404 "Image not found") \/
     exists (x : option string * option string) folder,
       fst (resolve_book_path fs BOOK_DIRS book_id st) = Ok x /\
       snd x = Some folder /\
       path_exists fs (posixpath.join folder
                         ["images"; posixpath.basename image_name]) = true /\
       r = Ok (FileResponse
                 (posixpath.join folder
                    ["images"; posixpath.basename image_name]))).
Proof.
  destruct (resolve_total fs BOOK_DIRS book_id) as (x & t0 & Ht0 & _ & Hres).
  unfold serve_image. rewrite (bind_ok _ _ _ _ _ (Hres st)).
  destruct (snd x) as [folder|] eqn:Hf.
  2:{ exists (Raise (HTTPException 404 "Book path not found")), t0.
      split; [reflexivity|]. split; [exact Ht0 | by left]. }
  destruct (PyStr.truthy folder); cbn [negb].
  2:{ exists (Raise (HTTPException 404 "Book path not found")), t0.
      split; [reflexivity|]. split; [exact Ht0 | by left]. }
  rewrite (bind_ok _ _ _ _ _ (os_path_exists_eq _ _ _)).
  rewrite add_trace_app.
  assert (Ht : forallb is_probe
                 (t0 ++ [EvExists (posixpath.join folder
                           ["images"; posixpath.basename image_name])])
               = true).
  { rewrite forallb_app, Ht0. reflexivity. }
  destruct (path_exists fs _) eqn:He; cbn [negb].
  - eexists _, _. split; [reflexivity|]. split; [exact Ht|].
    right. right. exists x, folder. rewrite Hres. by repeat split.
  - eexists _, _. split; [reflexivity|]. split; [exact Ht|].
    right. by left.
Qed.

Lemma split_nonempty c s : PyStr.split c s <> [].
Proof.
  destruct s as [|a s]; cbn; [discriminate|].
  destruct (Ascii.eqb a c); [discriminate|].
  destruct (PyStr.split c s); discriminate.
Qed.

Lemma split_app_sep c a b :
  PyStr.split c (a +:+ String c b)
  = (PyStr.split c a ++ PyStr.split c b)%list.
Proof.
  induction a as [|x a IH].
  - change ("" +:+ String c b) with (String c b).
    cbn [PyStr.split]. by rewrite Ascii.eqb_refl.
  - change (String x a +:+ String c b) with (String x (a +:+ String c b)).
    cbn [PyStr.split]. rewrite IH.
    destruct (Ascii.eqb x c); [reflexivity|].
    pose proof (split_nonempty c a).
    destruct (PyStr.split c a); [contradiction | reflexivity].
Qed.

Lemma split_no_sep c s : PyStr.contains c s = false -> PyStr.split c s = [s].
Proof.
  induction s as [|a s IH]; [reflexivity|].
  cbn [PyStr.contains PyStr.split]. intros [Ha Hs]%orb_false_iff.
  by rewrite Ha, (IH Hs).
Qed.

Lemma norm_comps_last k comps acc c :
  c <> "" -> c <> "." -> c <> ".." ->
  posixpath.norm_comps k (comps ++ [c]) acc
  = (posixpath.norm_comps k comps acc ++ [c])%list.
Proof.
  intros H0 H1 H2. revert acc.
  induction comps as [|x comps IH]; intros acc.
  - cbn [app posixpath.norm_comps].
    apply String.eqb_neq in H0, H1, H2. rewrite H0, H1, H2. reflexivity.
  - cbn [app posixpath.norm_comps].
    destruct (String.eqb x "" || String.eqb x "."); [apply IH|].
    destruct (_ || _ || _); apply IH.
Qed.

(** The images folder never ends in a slash, so the file name is joined to
    it with one. *)
Lemma join_images folder b :
  PyStr.startswith "/" b = false ->
  posixpath.join folder ["images"; b]
  = posixpath.join folder ["images"] +:+ String "/" b.
Proof.
  intros Hb.
  change (posixpath.join folder ["images"; b])
    with (posixpath.join2 (posixpath.join folder ["images"]) b).
  unfold posixpath.join2 at 1. unfold posixpath.sep. rewrite Hb.
  assert (H : exists y, posixpath.join folder ["images"] = y +:+ "images").
  { unfold posixpath.join. cbn [fold_left]. unfold posixpath.join2.
    change (PyStr.startswith posixpath.sep "images") with false. cbv iota.
    destruct (_ || _); [by eexists|].
    exists (folder +:+ "/"). by rewrite string_app_assoc. }
  destruct H as (y & ->).
  rewrite endswith_slash_app by discriminate.
  rewrite truthy_app_r by reflexivity. reflexivity.
Qed.

(** X5: unless the last component of the requested name is empty, [.] or
    [..], the path [serve_image] probes names a file directly inside the
    images folder: what [normpath] keeps of it is what it keeps of the
    images folder, followed by that last component. *)
Theorem image_path_stays_in_images folder image_name k :
  posixpath.basename image_name <> "" ->
  posixpath.basename image_name <> "." ->
  posixpath.basename image_name <> ".." ->
  norm_components k
    (posixpath.join folder ["images"; posixpath.basename image_name])
  = (norm_components k (posixpath.join folder ["images"])
     ++ [posixpath.basename image_name])%list.
Proof.
  intros H0 H1 H2. pose proof (basename_no_sep image_name) as Hns.
  rewrite join_images by (by apply contains_startswith).
  unfold norm_components, posixpath.sep.
  rewrite split_app_sep, (split_no_sep _ _ Hns).
  by apply norm_comps_last.
Qed.

Lemma image_path_stays_in_images_witness :
  norm_components 1
    (posixpath.join "/lib/bookA_data"
       ["images"; posixpath.basename "../../etc/passwd"])
  = ["lib"; "bookA_data"; "images"; "passwd"].
Proof.
  rewrite (image_path_stays_in_images "/lib/bookA_data" "../../etc/passwd" 1);
    [reflexivity | discriminate ..].
Defined.

(** ** The cache and the disk *)

Section CacheAndDisk.

Variable fs : FileSystem.
Variable BOOK_DIRS : list string.

(** The function under the decorator returns the same thing from every
    state, and adds the same events. *)
Lemma wrapped_uncached book_id :
  exists t,
    (forall st, load_book_cached_wrapped fs BOOK_DIRS book_id st
                = (uncached_value fs BOOK_DIRS book_id, add_trace st t)) /\
    (List.length (List.filter is_unpickle_event t) <= 1)%nat /\
    (forall e, uncached_value fs BOOK_DIRS book_id = Raise e ->
               is_Exception e = false).
Proof.
  destruct (wrapped_total fs BOOK_DIRS book_id) as (out & t & Hw & Hc & He).
  exists t. unfold uncached_value. rewrite Hw. cbn [fst]. by repeat split.
Qed.

Lemma errors_only_uncached book_id :
  errors_only fs -> exists v, uncached_value fs BOOK_DIRS book_id = Ok v.
Proof.
  intros Herr. destruct (wrapped_ok fs BOOK_DIRS book_id Herr) as (v & t & Hw & _).
  exists v. unfold uncached_value. by rewrite Hw.
Qed.

(** The two ways a lookup can go. *)
Lemma load_cases book_id st :
  (exists v,
      LRU.get book_id (lru st) = Some v /\
      load_book_cached fs BOOK_DIRS book_id st
      = (Ok v, {| lru := LRU.touch book_id v (lru st); hits := S (hits st);
                  misses := misses st; trace := trace st |})) \/
  (LRU.get book_id (lru st) = None /\
   exists t,
     (List.length (List.filter is_unpickle_event t) <= 1)%nat /\
     load_book_cached fs BOOK_DIRS book_id st
     = match uncached_value fs BOOK_DIRS book_id with
       | Ok v =>
           (Ok v, {| lru := LRU.put book_id v (lru st); hits := hits st;
                     misses := S (misses st); trace := trace st ++ t |})
       | Raise e =>
           (Raise e, {| lru := lru st; hits := hits st;
                        misses := S (misses st); trace := trace st ++ t |})
       end).
Proof.
  destruct (LRU.get book_id (lru st)) as [v|] eqn:Hget.
  - left. exists v. split; [reflexivity | by apply load_hit].
  - right. split; [reflexivity|].
    destruct (wrapped_uncached book_id) as (t & Hw & Hc & _).
    exists t. split; [exact Hc|]. by apply load_miss.
Qed.

Lemma get_remove_ne k k' c :
  k' <> k -> LRU.get k' (LRU.remove k c) = LRU.get k' c.
Proof.
  intros Hne. induction c as [|[k0 v0] c IH]; [reflexivity|].
  cbn [LRU.remove LRU.get]. destruct (String.eqb k0 k) eqn:E.
  - apply String.eqb_eq in E as ->.
    replace (String.eqb k k') with false
      by (symmetry; apply String.eqb_neq; congruence).
    exact IH.
  - cbn [LRU.get]. by rewrite IH.
Qed.

Lemma get_removelast_Some k c v :
  LRU.get k (removelast c) = Some v -> LRU.get k c = Some v.
Proof.
  induction c as [|[k0 v0] c IH]; [discriminate|].
  cbn [removelast]. destruct c as [|e c]; [discriminate|].
  cbn [LRU.get]. destruct (String.eqb k0 k); [trivial | exact IH].
Qed.

Lemma coherent_step book_id st :
  coherent fs BOOK_DIRS (lru st) ->
  coherent fs BOOK_DIRS
    (lru (snd (load_book_cached fs BOOK_DIRS book_id st))) /\
  fst (load_book_cached fs BOOK_DIRS book_id st)
  = uncached_value fs BOOK_DIRS book_id.
Proof.
  intros Hco.
  destruct (load_cases book_id st) as [(v & Hget & ->) | (Hget & t & _ & ->)].
  - cbn [fst snd lru]. split; [|symmetry; by apply Hco].
    intros k v'. unfold LRU.touch. cbn [LRU.get].
    destruct (String.eqb book_id k) eqn:E.
    + apply String.eqb_eq in E as <-. intros [= <-]. by apply Hco.
    + apply String.eqb_neq in E. rewrite get_remove_ne by congruence.
      apply Hco.
  - destruct (uncached_value fs BOOK_DIRS book_id) as [v|e] eqn:Hu;
      cbn [fst snd lru]; [|by split].
    split; [|reflexivity].
    intros k v'. unfold LRU.put. rewrite Hget.
    destruct (LRU.full (lru st)); cbn [LRU.get];
      (destruct (String.eqb book_id k) eqn:E;
       [apply String.eqb_eq in E as <-; by intros [= <-] |]).
    + intros H. apply Hco. by apply get_removelast_Some.
    + apply Hco.
Qed.

Lemma coherent_run h :
  coherent fs BOOK_DIRS (lru (run_lookups fs BOOK_DIRS h initial_state)).
Proof.
  induction h as [|k h IH] using rev_ind.
  - intros k v. discriminate.
  - rewrite run_lookups_app. by apply coherent_step.
Qed.

End CacheAndDisk.

(** X6: the cache is transparent.  After any sequence of lookups, every
    entry of the store holds what a load from the disk returns for its
    key, and a lookup of any identifier returns (or raises) exactly what
    the uncached function returns (or raises) for it. *)
Theorem cache_is_transparent fs BOOK_DIRS (h : list string) book_id :
  let st := run_lookups fs BOOK_DIRS h initial_state in
  coherent fs BOOK_DIRS (lru st) /\
  fst (load_book_cached fs BOOK_DIRS book_id st)
  = uncached_value fs BOOK_DIRS book_id.
Proof.
  intros st. pose proof (coherent_run fs BOOK_DIRS h) as Hco.
  split; [exact Hco|]. by apply coherent_step.
Qed.

(** X7: every lookup counts as exactly one hit or one miss, and the disk
    is opened at most once per miss: after any sequence of lookups,
    [hits + misses] is the number of lookups and the number of snapshots
    opened is at most [misses]. *)
Theorem cache_counters fs BOOK_DIRS (h : list string) :
  let st := run_lookups fs BOOK_DIRS h initial_state in
  (hits st + misses st = List.length h)%nat /\
  (unpickles st <= misses st)%nat.
Proof.
  induction h as [|k h IH] using rev_ind; [cbn; split; lia|].
  cbv zeta in *. rewrite run_lookups_app, length_app. cbn [List.length].
  destruct IH as [IH1 IH2].
  destruct (load_cases fs BOOK_DIRS k
              (run_lookups fs BOOK_DIRS h initial_state))
    as [(v & Hget & ->) | (Hget & t & Hc & ->)].
  - cbn [snd hits misses]. unfold unpickles in *. cbn [trace]. lia.
  - destruct (uncached_value fs BOOK_DIRS k); cbn [snd hits misses];
      unfold unpickles in *; cbn [trace];
      rewrite List.filter_app, length_app; lia.
Qed.

(** X8: a stored value is never checked against the disk again.  Once a
    lookup has returned, a lookup of the same identifier right after it
    returns the same value and reads nothing, on whatever disk it then
    runs. *)
Theorem stale_value_survives_disk_change fs fs' BOOK_DIRS book_id st :
  errors_only fs ->
  exists v st1 st2,
    load_book_cached fs BOOK_DIRS book_id st = (Ok v, st1) /\
    load_book_cached fs' BOOK_DIRS book_id st1 = (Ok v, st2) /\
    trace st2 = trace st1.
Proof.
  intros Herr.
  destruct (load_cases fs BOOK_DIRS book_id st)
    as [(v & Hget & Hload) | (Hget & t & _ & Hload)].
  - eexists v, _, _. split; [exact Hload|].
    split; [apply load_hit; cbn [lru]; apply get_touch | reflexivity].
  - destruct (errors_only_uncached fs BOOK_DIRS book_id Herr) as (v & Hv).
    rewrite Hv in Hload.
    eexists v, _, _. split; [exact Hload|].
    split; [apply load_hit; cbn [lru]; by apply get_put_miss | reflexivity].
Qed.

Lemma stale_value_survives_disk_change_witness :
  errors_only Demo.disk /\
  exists st1 st2,
    load_book_cached Demo.disk Demo.roots1 "0:bookA_data" initial_state
    = (Ok (Some Demo.bookA), st1) /\
    load_book_cached Demo.changed_disk Demo.roots1 "0:bookA_data" st1
    = (Ok (Some Demo.bookA), st2) /\
    uncached_value Demo.changed_disk Demo.roots1 "0:bookA_data" = Ok None.
Proof.
  assert (Herr : errors_only Demo.disk).
  { intros p e. cbn [unpickle Demo.disk].
    repeat (destruct (String.eqb _ _); [discriminate ||
                                        (intros [= <-]; reflexivity)|]).
    intros [= <-]. reflexivity. }
  split; [exact Herr|].
  destruct (stale_value_survives_disk_change Demo.disk Demo.changed_disk
              Demo.roots1 "0:bookA_data" initial_state Herr)
    as (v & st1 & st2 & H1 & H2 & _).
  assert (Hv : v = Some Demo.bookA).
  { assert (H : fst (load_book_cached Demo.disk Demo.roots1 "0:bookA_data"
                       initial_state) = Ok v) by (by rewrite H1).
    vm_compute in H. by injection H as <-. }
  subst v. exists st1, st2. split; [exact H1|]. split; [exact H2|].
  reflexivity.
Defined.

(** X9: what a lookup raises is never an [Exception], and a lookup that
    raises stores nothing: it was a miss, it is counted as one, and the
    store is left as it was, so the next lookup of the identifier goes to
    the disk again. *)
Theorem raising_lookup_is_not_cached fs BOOK_DIRS book_id st e st' :
  load_book_cached fs BOOK_DIRS book_id st = (Raise e, st') ->
  is_Exception e = false /\
  LRU.get book_id (lru st) = None /\
  lru st' = lru st /\
  LRU.get book_id (lru st') = None /\
  misses st' = S (misses st) /\ hits st' = hits st.
Proof.
  intros Hload.
  destruct (load_cases fs BOOK_DIRS book_id st)
    as [(v & Hget & H) | (Hget & t & _ & H)];
    rewrite H in Hload; [discriminate|].
  destruct (wrapped_uncached fs BOOK_DIRS book_id) as (_ & _ & _ & Hexc).
  destruct (uncached_value fs BOOK_DIRS book_id) as [v|e0]; [discriminate|].
  injection Hload as -> <-. cbn [lru misses hits].
  split; [by apply Hexc|]. by repeat split.
Qed.

Lemma raising_lookup_is_not_cached_witness :
  exists st',
    load_book_cached Demo.interrupted_disk Demo.roots1 "0:bookA_data"
                     initial_state
    = (Raise (PyExc KeyboardInterrupt ""), st') /\
    lru st' = [] /\ misses st' = 1%nat.
Proof.
  pose (st' := snd (load_book_cached Demo.interrupted_disk Demo.roots1
                      "0:bookA_data" initial_state)).
  assert (H : load_book_cached Demo.interrupted_disk Demo.roots1
                "0:bookA_data" initial_state
              = (Raise (PyExc KeyboardInterrupt ""), st')) by reflexivity.
  destruct (raising_lookup_is_not_cached _ _ _ _ _ _ H)
    as (_ & _ & Hlru & _ & Hm & _).
  exists st'. split; [exact H|]. split; [exact Hlru | exact Hm].
Defined.

(** ** What the cache holds *)

Lemma keys_remove k c : LRU.keys (LRU.remove k c) = forget k (LRU.keys c).
Proof.
  induction c as [|[k0 v0] c IH]; [reflexivity|].
  cbn [LRU.remove LRU.keys map fst forget].
  destruct (String.eqb k0 k); [exact IH|].
  cbn [map fst]. f_equal. exact IH.
Qed.

Lemma elem_of_forget x k (l : list string) :
  x ∈ forget k l <-> x ∈ l /\ x <> k.
Proof.
  induction l as [|y l IH]; cbn [forget].
  - split; [intros H; inversion H | intros [H _]; inversion H].
  - destruct (String.eqb y k) eqn:E.
    + apply String.eqb_eq in E as ->. rewrite IH, elem_of_cons.
      split; [intros [H1 H2]; split; [by right | exact H2] |].
      intros [[-> | H1] H2]; [contradiction | by split].
    + apply String.eqb_neq in E. rewrite !elem_of_cons, IH.
      split.
      * intros [-> | [H1 H2]]; split; auto.
      * intros [[-> | H1] H2]; [by left | right; by split].
Qed.

Lemma forget_notin k (l : list string) : k ∉ l -> forget k l = l.
Proof.
  induction l as [|y l IH]; [reflexivity|].
  intros [Hy Hl]%not_elem_of_cons. cbn [forget].
  replace (String.eqb y k) with false
    by (symmetry; apply String.eqb_neq; congruence).
  by rewrite IH.
Qed.

Lemma NoDup_forget k (l : list string) : NoDup l -> NoDup (forget k l).
Proof.
  induction 1 as [|y l Hy Hl IH]; cbn [forget]; [constructor|].
  destruct (String.eqb y k); [exact IH|].
  constructor; [|exact IH]. rewrite elem_of_forget. tauto.
Qed.

Lemma NoDup_recent h : NoDup (recent h).
Proof.
  unfold recent. induction h as [|k h IH] using rev_ind; [constructor|].
  rewrite fold_left_app. cbn [fold_left].
  constructor; [|by apply NoDup_forget].
  rewrite elem_of_forget. tauto.
Qed.

Lemma forget_take_in k n (r : list string) :
  NoDup r -> k ∈ take (S n) r ->
  forget k (take (S n) r) = take n (forget k r).
Proof.
  intros Hnd. revert n. induction Hnd as [|y r Hy Hr IH]; intros n Hk.
  - inversion Hk.
  - cbn [take forget] in *. destruct (String.eqb y k) eqn:E.
    + apply String.eqb_eq in E as ->.
      rewrite (forget_notin k r Hy).
      apply forget_notin. intros H. apply Hy.
      by apply (subseteq_take n r).
    + apply String.eqb_neq in E.
      apply elem_of_cons in Hk as [-> | Hk]; [contradiction|].
      destruct n as [|n]; [inversion Hk|].
      cbn [take]. f_equal. by apply IH.
Qed.

Lemma take_forget_notin k n (r : list string) :
  k ∉ take n r -> take n (forget k r) = take n r.
Proof.
  revert n. induction r as [|y r IH]; intros n Hk; [reflexivity|].
  destruct n as [|n]; [reflexivity|].
  cbn [take] in Hk. apply not_elem_of_cons in Hk as [Hy Hk].
  cbn [forget].
  replace (String.eqb y k) with false
    by (symmetry; apply String.eqb_neq; congruence).
  cbn [take]. f_equal. by apply IH.
Qed.

Lemma removelast_take {A} n (r : list A) :
  (S n <= List.length r)%nat -> removelast (take (S n) r) = take n r.
Proof.
  revert r. induction n as [|n IH]; intros r Hr.
  - destruct r; [cbn in Hr; lia | reflexivity].
  - destruct r as [|a r]; [cbn in Hr; lia|].
    cbn [List.length] in Hr.
    change (take (S (S n)) (a :: r)) with (a :: take (S n) r).
    change (take (S n) (a :: r)) with (a :: take n r).
    rewrite <- (IH r) by lia.
    destruct r as [|b r]; [cbn in Hr; lia | reflexivity].
Qed.

(** X10: when opening a snapshot raises errors only, the cache holds, after
    any sequence of lookups, exactly the ten most recently looked up
    distinct identifiers (all of them when there are fewer), the most
    recent first. *)
Theorem cache_holds_most_recent fs BOOK_DIRS (h : list string) :
  errors_only fs ->
  LRU.keys (lru (run_lookups fs BOOK_DIRS h initial_state))
  = take LRU.maxsize (recent h).
Proof.
  intros Herr. unfold LRU.maxsize.
  induction h as [|k h IH] using rev_ind; [reflexivity|].
  rewrite run_lookups_app.
  assert (Hrec : recent (h ++ [k]) = k :: forget k (recent h)).
  { unfold recent. by rewrite fold_left_app. }
  rewrite Hrec. pose proof (NoDup_recent h) as Hnd.
  set (st := run_lookups fs BOOK_DIRS h initial_state) in *.
  change (take 10 (k :: forget k (recent h)))
    with (k :: take 9 (forget k (recent h))).
  destruct (load_cases fs BOOK_DIRS k st)
    as [(v & Hget & ->) | (Hget & t & _ & ->)].
  - cbn [snd lru]. unfold LRU.touch.
    change (LRU.keys ((k, v) :: LRU.remove k (lru st)))
      with (k :: LRU.keys (LRU.remove k (lru st))).
    rewrite keys_remove, IH. f_equal.
    apply forget_take_in; [exact Hnd|].
    rewrite <- IH. destruct (decide (k ∈ LRU.keys (lru st))) as [H|H];
      [exact H|].
    apply get_None_keys in H. congruence.
  - destruct (errors_only_uncached fs BOOK_DIRS k Herr) as (v & ->).
    cbn [snd lru]. unfold LRU.put. rewrite Hget.
    apply get_None_keys in Hget. rewrite IH in Hget.
    assert (Hlen : List.length (lru st)
                   = List.length (take 10 (recent h))).
    { rewrite <- IH. unfold LRU.keys. by rewrite length_map. }
    unfold LRU.full, LRU.maxsize. rewrite Hlen.
    destruct (10 <=? List.length (take 10 (recent h)))%nat eqn:Hfull.
    + apply Nat.leb_le in Hfull. rewrite length_take in Hfull.
      change (LRU.keys ((k, v) :: removelast (lru st)))
        with (k :: LRU.keys (removelast (lru st))).
      rewrite keys_removelast, IH. f_equal.
      rewrite removelast_take by lia.
      symmetry. apply take_forget_notin.
      intros H. apply Hget.
      replace (take 9 (recent h)) with (take 9 (take 10 (recent h))) in H
        by (by rewrite take_take).
      by apply (subseteq_take 9) in H.
    + apply Nat.leb_gt in Hfull. rewrite length_take in Hfull.
      change (LRU.keys ((k, v) :: lru st)) with (k :: LRU.keys (lru st)).
      rewrite IH. f_equal.
      rewrite take_ge in Hget by lia.
      rewrite (forget_notin k (recent h) Hget).
      by rewrite !take_ge by lia.
Qed.

Lemma cache_holds_most_recent_witness :
  errors_only Demo.disk /\
  recent (Demo.ten ++ ["a"; "k"; "c"])%list
  = ["c"; "k"; "a"; "j"; "i"; "h"; "g"; "f"; "e"; "d"; "b"] /\
  LRU.keys (lru (run_lookups Demo.disk Demo.roots2
                   (Demo.ten ++ ["a"; "k"; "c"])%list initial_state))
  = ["c"; "k"; "a"; "j"; "i"; "h"; "g"; "f"; "e"; "d"].
Proof.
  assert (Herr : errors_only Demo.disk).
  { intros p e. cbn [unpickle Demo.disk].
    repeat (destruct (String.eqb _ _); [discriminate ||
                                        (intros [= <-]; reflexivity)|]).
    intros [= <-]. reflexivity. }
  split; [exact Herr|]. split; [reflexivity|].
  rewrite (cache_holds_most_recent Demo.disk Demo.roots2 _ Herr).
  reflexivity.
Defined.

(** ** The library page, entry by entry *)

Section Listing.

Variable fs : FileSystem.
Variable BOOK_DIRS : list string.

Lemma list_books_spec target_dir target_idx items :
  errors_only fs ->
  forall books st,
    coherent fs BOOK_DIRS (lru st) ->
    exists st',
      list_books fs BOOK_DIRS target_dir target_idx items books st
      = (Ok (books ++ omap (listed_entry fs BOOK_DIRS target_dir target_idx)
                           items)%list, st') /\
      coherent fs BOOK_DIRS (lru st').
Proof.
  intros Herr. induction items as [|item items IH]; intros books st Hco.
  - exists st. cbn [list_books omap list_omap]. rewrite app_nil_r.
    by split.
  - cbn [list_books omap list_omap]. unfold listed_entry at 1.
    destruct (PyStr.endswith "_data" item); cbn [andb]; [|by apply IH].
    rewrite (bind_ok _ _ _ _ _ (os_path_isdir_eq _ _ _)).
    destruct (path_isdir fs (posixpath.join target_dir [item]));
      [|by apply IH].
    set (st1 := add_trace st
                  [EvIsdir (posixpath.join target_dir [item])]).
    destruct (coherent_step fs BOOK_DIRS (scoped_id target_idx item) st1 Hco)
      as [Hco' Hval].
    destruct (errors_only_uncached fs BOOK_DIRS (scoped_id target_idx item)
                Herr) as (v & Hv).
    rewrite Hv in Hval |- *.
    destruct (load_book_cached fs BOOK_DIRS (scoped_id target_idx item) st1)
      as [r st2] eqn:Hload.
    cbn [fst snd] in Hval, Hco'. subst r.
    change (PyStr.of_int target_idx +:+ ":" +:+ item)
      with (scoped_id target_idx item).
    rewrite (bind_ok _ _ _ _ _ Hload).
    destruct v as [b|].
    + destruct (IH (books ++
                    [{| entry_id := scoped_id target_idx item;
                        entry_title := BookMetadata.title (metadata b);
                        entry_author :=
                          PyStr.join ", "
                            (BookMetadata.authors (metadata b));
                        entry_chapters := len (spine b) |}])%list st2 Hco')
        as (st' & Hl & Hc).
      exists st'. split; [|exact Hc].
      rewrite Hl. by rewrite <- app_assoc.
    + by apply IH.
Qed.

(** A lookup only ever adds to the trace. *)
Lemma load_extends_trace book_id st :
  exists t,
    trace (snd (load_book_cached fs BOOK_DIRS book_id st))
    = (trace st ++ t)%list.
Proof.
  destruct (load_cases fs BOOK_DIRS book_id st)
    as [(v & Hget & ->) | (Hget & t & _ & ->)].
  - exists []. cbn [snd trace]. by rewrite app_nil_r.
  - exists t. by destruct (uncached_value fs BOOK_DIRS book_id).
Qed.

Lemma list_books_extends_trace target_dir target_idx items :
  forall books st,
  exists t,
    trace (snd (list_books fs BOOK_DIRS target_dir target_idx items books st))
    = (trace st ++ t)%list.
Proof.
  induction items as [|item items IH]; intros books st.
  - exists []. cbn. by rewrite app_nil_r.
  - cbn [list_books].
    destruct (PyStr.endswith "_data" item); [|apply IH].
    rewrite (bind_ok _ _ _ _ _ (os_path_isdir_eq _ _ _)).
    destruct (path_isdir fs _).
    2:{ destruct (IH books (add_trace st
                    [EvIsdir (posixpath.join target_dir [item])]))
          as (t & Ht).
        eexists. rewrite Ht. cbn [trace add_trace].
        by rewrite <- app_assoc. }
    set (st1 := add_trace st [EvIsdir (posixpath.join target_dir [item])]).
    destruct (load_extends_trace
                (PyStr.of_int target_idx +:+ ":" +:+ item) st1) as (t1 & Ht1).
    unfold bind at 1.
    destruct (load_book_cached fs BOOK_DIRS
                (PyStr.of_int target_idx +:+ ":" +:+ item) st1)
      as [[v|e] st2]; cbn [snd] in Ht1.
    + assert (Hrest : forall bs, exists t,
                 trace (snd (list_books fs BOOK_DIRS target_dir target_idx
                               items bs st2))
                 = (trace st ++ t)%list).
      { intros bs. destruct (IH bs st2) as (t & Ht).
        eexists. rewrite Ht, Ht1. subst st1. cbn [trace add_trace].
        by rewrite <- !app_assoc. }
      destruct v; apply Hrest.
    + eexists. cbn [snd]. rewrite Ht1. subst st1. cbn [trace add_trace].
      by rewrite <- app_assoc.
Qed.

Lemma list_directories_spec i (dirs : list string) :
  List.length (list_directories fs i dirs) = List.length dirs /\
  forall k d,
    dirs !! k = Some d ->
    exists e,
      list_directories fs i dirs !! k = Some e /\
      dir_index_ e = i + Z.of_nat k /\
      dir_path e = posixpath.abspath (getcwd fs) d /\
      dir_name e = if PyStr.truthy (posixpath.basename (dir_path e))
                   then posixpath.basename (dir_path e) else d.
Proof.
  revert i. induction dirs as [|d0 dirs IH]; intros i.
  - split; [reflexivity | intros k d H; discriminate].
  - destruct (IH (i + 1)) as [Hlen Hk].
    split; [cbn; by rewrite Hlen|].
    intros [|k] d Hd.
    + injection Hd as <-. eexists. split; [reflexivity|].
      cbn [dir_index_ dir_path dir_name]. repeat split. lia.
    + destruct (Hk k d Hd) as (e & He & Hi & Hp & Hn).
      exists e. split; [exact He|]. repeat split; try assumption. lia.
Qed.

End Listing.

(** X11: with more than one directory configured and no [dir_index],
    [library_view] returns the page of directories and leaves the state as
    it was (no disk access, no cache lookup).  The page has one entry per
    configured directory, in order; the entry of the k-th directory shows
    its absolute path, the last component of that path as its name (the
    configured string itself when that is empty), and the index k, which
    is the [dir_index] that selects that directory. *)
Theorem directory_page_lists_every_directory fs BOOK_DIRS request st :
  1 < len BOOK_DIRS ->
  exists ds,
    library_view fs BOOK_DIRS request None st
    = (Ok (TemplateResponse "library.html" (CtxDirectories request ds)), st)
    /\
    List.length ds = List.length BOOK_DIRS /\
    forall k d,
      BOOK_DIRS !! k = Some d ->
      exists e,
        ds !! k = Some e /\
        dir_index_ e = Z.of_nat k /\
        getitem BOOK_DIRS (dir_index_ e) = Ok d /\
        dir_path e = posixpath.abspath (getcwd fs) d /\
        dir_name e = if PyStr.truthy (posixpath.basename (dir_path e))
                     then posixpath.basename (dir_path e) else d.
Proof.
  intros Hlen. exists (list_directories fs 0 BOOK_DIRS).
  split.
  { unfold library_view. replace (1 <? len BOOK_DIRS) with true by lia.
    reflexivity. }
  destruct (list_directories_spec fs 0 BOOK_DIRS) as [Hl Hk].
  split; [exact Hl|]. intros k d Hd.
  destruct (Hk k d Hd) as (e & He & Hi & Hp & Hn).
  exists e. split; [exact He|]. split; [lia|].
  split; [|by split].
  rewrite Hi. unfold getitem.
  replace (0 + Z.of_nat k <? 0) with false by lia.
  replace (0 + Z.of_nat k <? 0) with false by lia.
  replace (Z.to_nat (0 + Z.of_nat k)) with k by lia. by rewrite Hd.
Qed.

Lemma directory_page_lists_every_directory_witness :
  library_view Demo.disk Demo.roots2 Demo.request None initial_state
  = (Ok (TemplateResponse "library.html"
           (CtxDirectories Demo.request
              [{| dir_name := "lib"; dir_path := "/lib"; dir_index_ := 0 |};
               {| dir_name := "other"; dir_path := "/other";
                  dir_index_ := 1 |}])),
     initial_state).
Proof.
  destruct (directory_page_lists_every_directory Demo.disk Demo.roots2
              Demo.request initial_state) as (ds & Hview & _).
  - reflexivity.
  - rewrite Hview.
    assert (H : fst (library_view Demo.disk Demo.roots2 Demo.request None
                       initial_state)
                = Ok (TemplateResponse "library.html"
                        (CtxDirectories Demo.request ds)))
      by (by rewrite Hview).
    vm_compute in H. injection H as <-. reflexivity.
Defined.

(** X12: when opening a snapshot raises errors only and the store is
    coherent with the disk (as it is after any sequence of lookups), the
    library page of a directory is a function of the disk alone: if the
    directory does not exist the list is empty and nothing is listed; if
    listing it raises, that is raised; otherwise the page shows, in the
    order of [os.listdir], one line for each entry that ends in [_data],
    is a directory and whose snapshot loads, and no line for any other
    entry.  The store is coherent afterwards. *)
Theorem library_page_is_a_function_of_the_disk
    fs BOOK_DIRS request d root st :
  errors_only fs ->
  coherent fs BOOK_DIRS (lru st) ->
  0 <= d ->
  BOOK_DIRS !! Z.to_nat d = Some root ->
  exists st',
    library_view fs BOOK_DIRS request (Some d) st
    = (match (if path_exists fs root then listdir fs root else Ok []) with
       | Ok items =>
           Ok (TemplateResponse "library.html"
                 (CtxBooks request
                    (omap (listed_entry fs BOOK_DIRS root d) items)))
       | Raise e => Raise e
       end, st') /\
    coherent fs BOOK_DIRS (lru st').
Proof.
  intros Herr Hco Hd Hroot.
  assert (Hlt : d < len BOOK_DIRS).
  { apply lookup_lt_Some in Hroot. unfold len. lia. }
  unfold library_view. rewrite andb_false_r.
  replace ((d <? 0) || (len BOOK_DIRS <=? d)) with false
    by (symmetry; apply orb_false_iff; split; lia).
  assert (Hg : lift (getitem BOOK_DIRS d) st = (Ok root, st)).
  { unfold lift, getitem. replace (d <? 0) with false by lia.
    replace (d <? 0) with false by lia. by rewrite Hroot. }
  rewrite (bind_ok _ _ _ _ _ Hg).
  rewrite (bind_ok _ _ _ _ _ (os_path_exists_eq _ _ _)).
  destruct (path_exists fs root).
  - unfold bind at 1. unfold bind at 1. rewrite os_listdir_eq.
    destruct (listdir fs root) as [items|e]; [|eexists; by split].
    destruct (list_books_spec fs BOOK_DIRS root d items Herr []
                (add_trace (add_trace st [EvExists root]) [EvListdir root])
                Hco) as (st' & Hl & Hc).
    rewrite Hl. exists st'. by split.
  - eexists. split; [reflexivity | exact Hco].
Qed.

Lemma library_page_is_a_function_of_the_disk_witness :
  errors_only Demo.disk /\
  coherent Demo.disk Demo.roots2 (lru initial_state) /\
  omap (listed_entry Demo.disk Demo.roots2 "/lib" 0)
       ["bookA_data"; "bad_data"; "notes.txt"]
  = [{| entry_id := "0:bookA_data"; entry_title := "Book A";
        entry_author := "Me"; entry_chapters := 3 |}] /\
  fst (library_view Demo.disk Demo.roots2 Demo.request (Some 0)
         initial_state)
  = Ok (TemplateResponse "library.html"
          (CtxBooks Demo.request
             [{| entry_id := "0:bookA_data"; entry_title := "Book A";
                 entry_author := "Me"; entry_chapters := 3 |}])).
Proof.
  assert (Herr : errors_only Demo.disk).
  { intros p e. cbn [unpickle Demo.disk].
    repeat (destruct (String.eqb _ _); [discriminate ||
                                        (intros [= <-]; reflexivity)|]).
    intros [= <-]. reflexivity. }
  assert (Hco : coherent Demo.disk Demo.roots2 (lru initial_state))
    by (intros k v; discriminate).
  split; [exact Herr|]. split; [exact Hco|]. split; [reflexivity|].
  destruct (library_page_is_a_function_of_the_disk Demo.disk Demo.roots2
              Demo.request 0 "/lib" initial_state Herr Hco)
    as (st' & Hview & _); [lia | reflexivity |].
  rewrite Hview. reflexivity.
Defined.

(** ** Following the links of a chapter page *)

Lemma load_stores fs BOOK_DIRS book_id st v st' :
  load_book_cached fs BOOK_DIRS book_id st = (Ok v, st') ->
  LRU.get book_id (lru st') = Some v.
Proof.
  intros Hload.
  destruct (load_cases fs BOOK_DIRS book_id st)
    as [(v0 & Hget & H) | (Hget & t & _ & H)]; rewrite H in Hload.
  - injection Hload as <- <-. apply get_touch.
  - destruct (uncached_value fs BOOK_DIRS book_id); [|discriminate].
    injection Hload as <- <-. by apply get_put_miss.
Qed.

(** X13: the links of a chapter page never dangle.  When [read_chapter]
    renders a chapter, each of [prev_idx] and [next_idx] that is present
    is an index at which the next request for the same identifier renders
    a chapter of the same book. *)
Theorem chapter_links_lead_to_chapters
    fs BOOK_DIRS request book_id i st book ch prev_idx next_idx st1 j :
  read_chapter fs BOOK_DIRS request book_id i st
  = (Ok (TemplateResponse "reader.html"
           (CtxReader request book ch i book_id prev_idx next_idx)), st1) ->
  prev_idx = Some j \/ next_idx = Some j ->
  exists ch' prev' next' st2,
    spine book !! Z.to_nat j = Some ch' /\
    read_chapter fs BOOK_DIRS request book_id j st1
    = (Ok (TemplateResponse "reader.html"
             (CtxReader request book ch' j book_id prev' next')), st2).
Proof.
  intros Hread Hj. unfold read_chapter in Hread.
  destruct (load_book_cached fs BOOK_DIRS book_id st) as [[ob|e] s] eqn:Hload.
  2:{ rewrite (bind_raise _ _ _ _ _ Hload) in Hread. discriminate. }
  rewrite (bind_ok _ _ _ _ _ Hload) in Hread.
  destruct ob as [b|]; [|discriminate].
  destruct ((i <? 0) || (len (spine b) <=? i)) eqn:Hrange; [discriminate|].
  apply orb_false_iff in Hrange as [Hlo Hhi].
  unfold bind, lift in Hread.
  destruct (getitem (spine b) i) as [c|e]; [|discriminate].
  unfold ret in Hread. injection Hread as -> -> <- <- ->.
  apply Z.ltb_ge in Hlo. apply Z.leb_gt in Hhi.
  assert (Hjr : 0 <= j < len (spine book)).
  { destruct Hj as [Hj | Hj].
    - destruct (0 <? i) eqn:E; [|discriminate]. apply Z.ltb_lt in E.
      injection Hj as Hj. unfold len in *. lia.
    - destruct (i <? len (spine book) - 1) eqn:E; [|discriminate].
      apply Z.ltb_lt in E. injection Hj as Hj. unfold len in *. lia. }
  pose proof (load_stores _ _ _ _ _ _ Hload) as Hget.
  pose proof (load_hit fs BOOK_DIRS _ _ _ Hget) as Hhit.
  destruct (spine book !! Z.to_nat j) as [ch'|] eqn:Hch.
  2:{ apply lookup_ge_None in Hch. unfold len in Hjr. lia. }
  exists ch'. eexists _, _, _. split; [reflexivity|].
  unfold read_chapter. rewrite (bind_ok _ _ _ _ _ Hhit).
  replace ((j <? 0) || (len (spine book) <=? j)) with false
    by (symmetry; apply orb_false_iff; split; lia).
  unfold bind, lift, getitem. replace (j <? 0) with false by lia.
  replace (j <? 0) with false by lia. rewrite Hch. reflexivity.
Qed.

Lemma chapter_links_lead_to_chapters_witness :
  exists st1 st2,
    read_chapter Demo.disk Demo.roots1 Demo.request "0:bookA_data" 1
                 initial_state
    = (Ok (TemplateResponse "reader.html"
             (CtxReader Demo.request Demo.bookA (Demo.chapter 1 "Two") 1
                        "0:bookA_data" (Some 0) (Some 2))), st1) /\
    fst (read_chapter Demo.disk Demo.roots1 Demo.request "0:bookA_data" 2 st1)
    = Ok (TemplateResponse "reader.html"
            (CtxReader Demo.request Demo.bookA (Demo.chapter 2 "Three") 2
                       "0:bookA_data" (Some 1) None)) /\
    read_chapter Demo.disk Demo.roots1 Demo.request "0:bookA_data" 2 st1
    = (fst (read_chapter Demo.disk Demo.roots1 Demo.request "0:bookA_data"
              2 st1), st2).
Proof.
  pose (st1 := snd (read_chapter Demo.disk Demo.roots1 Demo.request
                      "0:bookA_data" 1 initial_state)).
  assert (H1 : read_chapter Demo.disk Demo.roots1 Demo.request "0:bookA_data"
                 1 initial_state
               = (Ok (TemplateResponse "reader.html"
                        (CtxReader Demo.request Demo.bookA
                           (Demo.chapter 1 "Two") 1 "0:bookA_data"
                           (Some 0) (Some 2))), st1)) by reflexivity.
  destruct (chapter_links_lead_to_chapters _ _ _ _ _ _ _ _ _ _ _ 2 H1
              (or_intror eq_refl))
    as (ch' & prev' & next' & st2 & Hch & H2).
  exists st1, st2. split; [exact H1|]. split; [reflexivity|].
  rewrite H2. reflexivity.
Defined.

(** ** The directories given on the command line *)

(** X14: whatever the command line, the directory list the main block
    configures is not empty (the current directory when no directory is
    given), so [library_view] never fails to find its directory: for
    every [dir_index], present or not, in range or not, it either returns
    the page of directories without touching the state, or goes on to
    probe one of the configured directories. *)
Theorem configured_library_view_finds_its_directory
    fs (argv : list string) request dir_index st :
  let dirs := book_dirs_from_argv argv in
  dirs <> [] /\
  ((exists ds,
       library_view fs dirs request dir_index st
       = (Ok (TemplateResponse "library.html" (CtxDirectories request ds)),
          st)) \/
   (exists root r st' t,
       root ∈ dirs /\
       library_view fs dirs request dir_index st = (r, st') /\
       trace st' = (trace st ++ EvExists root :: t)%list)).
Proof.
  intros dirs.
  assert (Hne : dirs <> []).
  { subst dirs. unfold book_dirs_from_argv.
    destruct (1 <? len argv) eqn:E; [|discriminate].
    apply Z.ltb_lt in E. unfold len in E.
    destruct argv as [|a [|b argv]]; cbn in E; try lia. discriminate. }
  split; [exact Hne|].
  unfold library_view.
  destruct ((1 <? len dirs)
            && match dir_index with None => true | Some _ => false end);
    [left; by eexists|].
  right.
  set (idx := if (_ <? 0) || (len dirs <=? _) then 0 else _).
  assert (Hidx : 0 <= idx < len dirs).
  { subst idx. destruct dirs as [|d0 ds]; [contradiction|].
    unfold len. cbn [List.length].
    destruct ((_ <? 0) || (_ <=? _)) eqn:E; [lia|].
    apply orb_false_iff in E as [E1 E2].
    apply Z.ltb_ge in E1. apply Z.leb_gt in E2. lia. }
  destruct (dirs !! Z.to_nat idx) as [root|] eqn:Hroot.
  2:{ apply lookup_ge_None in Hroot. unfold len in Hidx. lia. }
  assert (Hg : lift (getitem dirs idx) st = (Ok root, st)).
  { unfold lift, getitem. replace (idx <? 0) with false by lia.
    replace (idx <? 0) with false by lia. by rewrite Hroot. }
  rewrite (bind_ok _ _ _ _ _ Hg).
  rewrite (bind_ok _ _ _ _ _ (os_path_exists_eq _ _ _)).
  exists root.
  assert (Hin : root ∈ dirs) by (by eapply list_elem_of_lookup_2).
  destruct (path_exists fs root).
  - unfold bind at 1. unfold bind at 1. rewrite os_listdir_eq.
    destruct (listdir fs root) as [items|e].
    + destruct (list_books_extends_trace fs dirs root idx items []
                  (add_trace (add_trace st [EvExists root]) [EvListdir root]))
        as (t & Ht).
      destruct (list_books fs dirs root idx items [] _) as [[bs|e] st'];
        cbn [snd] in Ht; eexists _, _, _;
        (split; [exact Hin|]); (split; [reflexivity|]);
        rewrite Ht; cbn [trace add_trace]; by rewrite <- !app_assoc.
    + eexists _, _, _. split; [exact Hin|]. split; [reflexivity|].
      cbn [trace add_trace]. by rewrite <- app_assoc.
  - eexists _, _, []. split; [exact Hin|]. split; [reflexivity|].
    reflexivity.
Qed.

(** ** From the library page to the reader *)

(** X15: every line of the library page opens.  When opening a snapshot
    raises errors only and the store is coherent with the disk, the
    identifier of a listed entry, requested at any chapter index below the
    chapter count the line shows, renders a chapter of the book whose
    title the line shows. *)
Theorem listed_books_open
    fs BOOK_DIRS request target_dir target_idx item e chapter_index st :
  errors_only fs ->
  coherent fs BOOK_DIRS (lru st) ->
  listed_entry fs BOOK_DIRS target_dir target_idx item = Some e ->
  0 <= chapter_index < entry_chapters e ->
  exists book ch prev_idx next_idx st',
    read_chapter fs BOOK_DIRS request (entry_id e) chapter_index st
    = (Ok (TemplateResponse "reader.html"
             (CtxReader request book ch chapter_index (entry_id e)
                        prev_idx next_idx)), st') /\
    spine book !! Z.to_nat chapter_index = Some ch /\
    BookMetadata.title (metadata book) = entry_title e.
Proof.
  intros Herr Hco Hentry Hrange. unfold listed_entry in Hentry.
  destruct (_ && _); [|discriminate].
  destruct (uncached_value fs BOOK_DIRS (scoped_id target_idx item))
    as [[b|]|] eqn:Hu; try discriminate.
  injection Hentry as <-. cbn [entry_id entry_chapters entry_title] in *.
  destruct (coherent_step fs BOOK_DIRS (scoped_id target_idx item) st Hco)
    as [_ Hval].
  rewrite Hu in Hval.
  destruct (load_book_cached fs BOOK_DIRS (scoped_id target_idx item) st)
    as [r st'] eqn:Hload.
  cbn [fst] in Hval. subst r.
  destruct (spine b !! Z.to_nat chapter_index) as [ch|] eqn:Hch.
  2:{ apply lookup_ge_None in Hch. unfold len in Hrange. lia. }
  exists b, ch. eexists _, _, st'. split; [|by split].
  unfold read_chapter. rewrite (bind_ok _ _ _ _ _ Hload).
  replace ((chapter_index <? 0) || (len (spine b) <=? chapter_index))
    with false by (symmetry; apply orb_false_iff; split; lia).
  unfold bind, lift, getitem.
  replace (chapter_index <? 0) with false by lia.
  replace (chapter_index <? 0) with false by lia.
  rewrite Hch. reflexivity.
Qed.

Lemma listed_books_open_witness :
  errors_only Demo.disk /\
  listed_entry Demo.disk Demo.roots2 "/other" 1 "bookB_data"
  = Some {| entry_id := "1:bookB_data"; entry_title := "Book B";
            entry_author := "Me"; entry_chapters := 1 |} /\
  exists book ch prev_idx next_idx st',
    read_chapter Demo.disk Demo.roots2 Demo.request "1:bookB_data" 0
                 initial_state
    = (Ok (TemplateResponse "reader.html"
             (CtxReader Demo.request book ch 0 "1:bookB_data"
                        prev_idx next_idx)), st') /\
    spine book !! 0%nat = Some ch /\
    BookMetadata.title (metadata book) = "Book B".
Proof.
  assert (Herr : errors_only Demo.disk).
  { intros p e. cbn [unpickle Demo.disk].
    repeat (destruct (String.eqb _ _); [discriminate ||
                                        (intros [= <-]; reflexivity)|]).
    intros [= <-]. reflexivity. }
  assert (Hco : coherent Demo.disk Demo.roots2 (lru initial_state))
    by (intros k v; discriminate).
  split; [exact Herr|]. split; [reflexivity|].
  apply (listed_books_open Demo.disk Demo.roots2 Demo.request "/other" 1
           "bookB_data"
           {| entry_id := "1:bookB_data"; entry_title := "Book B";
              entry_author := "Me"; entry_chapters := 1 |}
           0 initial_state Herr Hco eq_refl).
  cbn [entry_chapters]. lia.
Defined.

(** ** Looking an identifier up again *)

Section LookingUpAgain.

Variable fs : FileSystem.
Variable BOOK_DIRS : list string.

(** The function under the decorator opens a snapshot exactly when it
    returns and the resolved snapshot exists. *)
Lemma wrapped_count book_id :
  exists out t,
    (forall st, load_book_cached_wrapped fs BOOK_DIRS book_id st
                = (out, add_trace st t)) /\
    forall v st0,
      out = Ok v ->
      List.length (List.filter is_unpickle_event t)
      = if snapshot_exists fs BOOK_DIRS book_id st0 then 1%nat else 0%nat.
Proof.
  destruct (resolve_total fs BOOK_DIRS book_id) as (r & t0 & Ht0 & Htr & Hres).
  assert (Hnone : List.filter is_unpickle_event t0 = []).
  { clear Hres. induction t0 as [|[] t0 IH]; cbn in *;
      try discriminate; auto. }
  assert (Hlen : forall t1, List.length
                   (List.filter is_unpickle_event (t0 ++ t1))
                 = List.length (List.filter is_unpickle_event t1)).
  { intros t1. by rewrite List.filter_app, Hnone. }
  assert (Hsnap : forall st, snapshot_exists fs BOOK_DIRS book_id st
                  = match fst r with
                    | Some p => path_exists fs p
                    | None => false
                    end).
  { intros st. unfold snapshot_exists. rewrite Hres. cbn [fst].
    destruct r as [[p|] f]; reflexivity. }
  destruct (fst r) as [p|] eqn:Hp.
  2:{ exists (Ok None), t0. split.
      - intros st. rewrite (wrapped_eq _ _ _ _ _ _ (Hres st)), Hp.
        reflexivity.
      - intros v st0 _. by rewrite Hsnap, Hnone. }
  destruct (path_exists fs p) eqn:He.
  2:{ exists (Ok None), (t0 ++ [EvExists p])%list. split.
      - intros st.
        rewrite (wrapped_eq _ _ _ _ _ _ (Hres st)), Hp, (Htr p eq_refl), He.
        reflexivity.
      - intros v st0 _. by rewrite Hsnap, Hlen. }
  destruct (unpickle fs p) as [b|e] eqn:Hu.
  - exists (Ok (Some b)), (t0 ++ [EvExists p; EvUnpickle p])%list. split.
    + intros st.
      rewrite (wrapped_eq _ _ _ _ _ _ (Hres st)), Hp, (Htr p eq_refl), He, Hu.
      reflexivity.
    + intros v st0 _. by rewrite Hsnap, Hlen.
  - destruct (is_Exception e) eqn:Hexc.
    + exists (Ok None),
        (t0 ++ [EvExists p; EvUnpickle p;
                EvPrint ("Error loading book " +:+ book_id +:+ ": "
                         +:+ exn_str e)])%list.
      split.
      * intros st.
        rewrite (wrapped_eq _ _ _ _ _ _ (Hres st)), Hp, (Htr p eq_refl),
          He, Hu, Hexc.
        reflexivity.
      * intros v st0 _. by rewrite Hsnap, Hlen.
    + exists (Raise e), (t0 ++ [EvExists p; EvUnpickle p])%list. split.
      * intros st.
        rewrite (wrapped_eq _ _ _ _ _ _ (Hres st)), Hp, (Htr p eq_refl),
          He, Hu, Hexc.
        reflexivity.
      * intros v st0 Hv. discriminate.
Qed.

Lemma stored_key x c v : LRU.get x c = Some v -> In x (LRU.keys c).
Proof.
  intros H. apply list_elem_of_In.
  destruct (decide (x ∈ LRU.keys c)) as [Hin|Hout]; [exact Hin|].
  apply get_None_keys in Hout. congruence.
Qed.

Lemma key_stored x c : In x (LRU.keys c) -> exists v, LRU.get x c = Some v.
Proof.
  intros H. destruct (LRU.get x c) as [v|] eqn:Hget; [by exists v|].
  apply get_None_keys in Hget. exfalso. apply Hget. by apply list_elem_of_In.
Qed.

(** A lookup that does not evict leaves every stored entry stored, with
    the value it had. *)
Lemma lookup_keeps_entry k x st v :
  LRU.get x (lru st) = Some v ->
  evicts fs BOOK_DIRS k st = false ->
  LRU.get x (lru (snd (load_book_cached fs BOOK_DIRS k st))) = Some v.
Proof.
  intros Hx Hev.
  assert (Hstays : In x (LRU.keys
                           (lru (snd (load_book_cached fs BOOK_DIRS k st))))).
  { unfold evicts in Hev.
    destruct (existsb (String.eqb x)
                (LRU.keys (lru (snd (load_book_cached fs BOOK_DIRS k st)))))
      eqn:Hmem.
    - apply existsb_exists in Hmem as (y & Hy & Hxy).
      apply String.eqb_eq in Hxy as ->. exact Hy.
    - exfalso. apply not_true_iff_false in Hev. apply Hev.
      apply existsb_exists. exists x.
      split; [by eapply stored_key | by rewrite Hmem]. }
  apply key_stored in Hstays as (v' & Hv'). rewrite Hv'. f_equal.
  destruct (load_cases fs BOOK_DIRS k st)
    as [(vk & Hget & Hload) | (Hget & t & _ & Hload)];
    rewrite Hload in Hv'.
  - cbn [snd lru] in Hv'. unfold LRU.touch in Hv'. cbn [LRU.get] in Hv'.
    destruct (String.eqb k x) eqn:E.
    + apply String.eqb_eq in E as ->. congruence.
    + apply String.eqb_neq in E.
      rewrite get_remove_ne in Hv' by congruence. congruence.
  - assert (Hne : String.eqb k x = false).
    { apply String.eqb_neq. intros ->. congruence. }
    destruct (uncached_value fs BOOK_DIRS k) as [v0|e]; cbn [snd lru] in Hv';
      [|congruence].
    unfold LRU.put in Hv'. rewrite Hget in Hv'.
    destruct (LRU.full (lru st)); cbn [LRU.get] in Hv'; rewrite Hne in Hv'.
    + apply get_removelast_Some in Hv'. congruence.
    + congruence.
Qed.

Lemma lookups_keep_entry x v ids :
  forall st,
    LRU.get x (lru st) = Some v ->
    no_evictions fs BOOK_DIRS ids st = true ->
    LRU.get x (lru (run_lookups fs BOOK_DIRS ids st)) = Some v.
Proof.
  induction ids as [|k ids IH]; intros st Hx Hno; [exact Hx|].
  cbn [no_evictions] in Hno. apply andb_true_iff in Hno as [Hk Hrest].
  apply negb_true_iff in Hk.
  change (run_lookups fs BOOK_DIRS (k :: ids) st)
    with (run_lookups fs BOOK_DIRS ids
            (snd (load_book_cached fs BOOK_DIRS k st))).
  apply IH; [by apply lookup_keeps_entry | exact Hrest].
Qed.

End LookingUpAgain.

(** C3: a lookup of an identifier returns whenever opening a snapshot
    raises errors only; and once it has returned a value (a book or
    absence), a later lookup of the same identifier, after any lookups in
    between of which none evicts, returns that same value as a hit: it
    leaves the trace as it was, so it touches no disk, and it counts as a
    hit and not as a miss.  If the first lookup missed, it ran the load
    function once (one miss) and opened a snapshot once if the resolved
    snapshot exists and never otherwise; so the two lookups together read
    the disk exactly once, for an absent book as for a present one. *)
Theorem second_lookup_reads_nothing
    fs BOOK_DIRS book_id (between : list string) st :
  (errors_only fs ->
   exists v st1, load_book_cached fs BOOK_DIRS book_id st = (Ok v, st1)) /\
  forall v st1,
    load_book_cached fs BOOK_DIRS book_id st = (Ok v, st1) ->
    no_evictions fs BOOK_DIRS between st1 = true ->
    exists st2,
      load_book_cached fs BOOK_DIRS book_id
        (run_lookups fs BOOK_DIRS between st1) = (Ok v, st2) /\
      trace st2 = trace (run_lookups fs BOOK_DIRS between st1) /\
      hits st2 = S (hits (run_lookups fs BOOK_DIRS between st1)) /\
      misses st2 = misses (run_lookups fs BOOK_DIRS between st1) /\
      (LRU.get book_id (lru st) = None ->
       misses st1 = S (misses st) /\
       hits st1 = hits st /\
       unpickles st1
       = (unpickles st
          + if snapshot_exists fs BOOK_DIRS book_id st then 1 else 0)%nat).
Proof.
  split; [by apply load_returns|].
  intros v st1 Hload Hno.
  pose proof (load_stores _ _ _ _ _ _ Hload) as Hstored.
  pose proof (lookups_keep_entry fs BOOK_DIRS _ _ _ _ Hstored Hno) as Hkept.
  eexists. split; [by apply load_hit|].
  cbn [trace hits misses].
  split; [reflexivity|]. split; [reflexivity|]. split; [reflexivity|].
  intros Hmiss.
  destruct (wrapped_count fs BOOK_DIRS book_id) as (out & t & Hw & Hcount).
  rewrite (load_miss _ _ _ _ _ _ Hmiss Hw) in Hload.
  destruct out as [v0|e]; [|discriminate].
  injection Hload as <- <-. cbn [misses hits].
  split; [reflexivity|]. split; [reflexivity|].
  unfold unpickles. cbn [trace].
  by rewrite List.filter_app, length_app, (Hcount v0 st eq_refl).
Qed.

Lemma second_lookup_reads_nothing_witness :
  (exists st1 st2,
      load_book_cached Demo.disk Demo.roots1 "0:bookA_data" initial_state
      = (Ok (Some Demo.bookA), st1) /\
      no_evictions Demo.disk Demo.roots1 ["zzz"; "0:bad_data"] st1 = true /\
      load_book_cached Demo.disk Demo.roots1 "0:bookA_data"
        (run_lookups Demo.disk Demo.roots1 ["zzz"; "0:bad_data"] st1)
      = (Ok (Some Demo.bookA), st2) /\
      trace st2
      = trace (run_lookups Demo.disk Demo.roots1 ["zzz"; "0:bad_data"] st1) /\
      hits st2 = 1%nat /\ misses st2 = 3%nat /\
      unpickles st1 = 1%nat /\ unpickles st2 = 2%nat) /\
  (exists st1 st2,
      load_book_cached Demo.disk Demo.roots1 "0:nothing" initial_state
      = (Ok None, st1) /\
      load_book_cached Demo.disk Demo.roots1 "0:nothing"
        (run_lookups Demo.disk Demo.roots1 ["0:bookA_data"] st1)
      = (Ok None, st2) /\
      hits st2 = 1%nat /\ misses st2 = 2%nat /\ unpickles st1 = 0%nat).
Proof.
  split.
  - pose (st1 := snd (load_book_cached Demo.disk Demo.roots1 "0:bookA_data"
                        initial_state)).
    assert (H1 : load_book_cached Demo.disk Demo.roots1 "0:bookA_data"
                   initial_state = (Ok (Some Demo.bookA), st1))
      by reflexivity.
    assert (Hno : no_evictions Demo.disk Demo.roots1 ["zzz"; "0:bad_data"] st1
                  = true) by reflexivity.
    destruct (proj2 (second_lookup_reads_nothing Demo.disk Demo.roots1
                       "0:bookA_data" ["zzz"; "0:bad_data"] initial_state)
                _ _ H1 Hno)
      as (st2 & H2 & Ht & Hh & Hm & Hfirst).
    destruct (Hfirst eq_refl) as (_ & _ & Hu).
    exists st1, st2. split; [exact H1|]. split; [exact Hno|].
    split; [exact H2|]. split; [exact Ht|].
    split; [rewrite Hh; reflexivity|]. split; [rewrite Hm; reflexivity|].
    split; [exact Hu|].
    unfold unpickles. rewrite Ht. reflexivity.
  - pose (st1 := snd (load_book_cached Demo.disk Demo.roots1 "0:nothing"
                        initial_state)).
    assert (H1 : load_book_cached Demo.disk Demo.roots1 "0:nothing"
                   initial_state = (Ok None, st1)) by reflexivity.
    destruct (proj2 (second_lookup_reads_nothing Demo.disk Demo.roots1
                       "0:nothing" ["0:bookA_data"] initial_state)
                _ _ H1 eq_refl)
      as (st2 & H2 & Ht & Hh & Hm & Hfirst).
    destruct (Hfirst eq_refl) as (_ & _ & Hu).
    exists st1, st2. split; [exact H1|]. split; [exact H2|].
    split; [rewrite Hh; reflexivity|]. split; [rewrite Hm; reflexivity|].
    exact Hu.
Defined.
